(** * Sidekick: a worker / tools / evaluator loop over a checkpointed thread

    Shallow embedding of the Python sources
      - [src/core/state.py]     (State, EvaluatorOutput, create_initial_state)
      - [src/core/sidekick.py]  (class Sidekick)
      - [src/tools/browser.py]  (cleanup_browser)
      - [src/ui/gradio_app.py]  (SidekickUI.process_message)
    followed by the properties of the specification that are settled on it.

    Conventions.
      - Python [str] is [string]; a character is a code point below 256.
      - A Python exception is a value of [Exception]; code that can raise
        returns a [result].
      - Code with effects (LLM calls, tool calls, the browser, logging, the
        checkpointer, attributes of [self]) runs in the monad [M S], a state
        monad over [S] whose state survives a raised exception.
      - External services are the fields of [Services]; each is indexed by
        the number of events that happened before the call, so that two
        calls with equal arguments may answer differently. *)

From stdpp Require Import base strings list gmap.
From Stdlib Require Import ZArith Ascii.

Open Scope Z_scope.

(* ===================================================================== *)
(** ** Python values, exceptions and the effect monad                     *)
(* ===================================================================== *)

Inductive ExceptionType :=
| IndexError | AttributeError | ValueError | RuntimeError
| GraphRecursionError | ServiceError.

(** [str e] is what [str(e)] and an f-string [{e}] print. *)
Record Exception := mkException { exc_type : ExceptionType; str : string }.

Inductive result (A : Type) : Type :=
| Ok (a : A)
| Raise (e : Exception).
Arguments Ok {A} a.
Arguments Raise {A} e.

#[global] Instance result_ret : MRet result := fun A a => Ok a.
#[global] Instance result_bind : MBind result := fun A B f r =>
  match r with Ok a => f a | Raise e => Raise e end.

(** State and exceptions: the state reached when the exception was raised
    is kept, as the mutations of Python objects are. *)
Definition M (S A : Type) : Type := S -> S * result A.

#[global] Instance M_ret {S} : MRet (M S) := fun A a s => (s, Ok a).
#[global] Instance M_bind {S} : MBind (M S) := fun A B f m s =>
  match m s with
  | (s', Ok a) => f a s'
  | (s', Raise e) => (s', Raise e)
  end.

Definition raise {S A} (e : Exception) : M S A := fun s => (s, Raise e).
Definition modify {S} (f : S -> S) : M S unit := fun s => (f s, Ok tt).
Definition lift_result {S A} (r : result A) : M S A := fun s => (s, r).

(** [try: body  except Exception as e: handler(e)] *)
Definition try_except {S A} (body : M S A) (handler : Exception -> M S A) : M S A :=
  fun s => match body s with
           | (s', Ok a) => (s', Ok a)
           | (s', Raise e) => handler e s'
           end.

(** [try: body  finally: final] *)
Definition try_finally {S A} (body : M S A) (final : M S unit) : M S A :=
  fun s => match body s with
           | (s', r) => match final s' with
                        | (s'', Ok _) => (s'', r)
                        | (s'', Raise e) => (s'', Raise e)
                        end
           end.

(** Run a computation on a component of the state. *)
Definition zoom {S T A} (proj : S -> T) (upd : T -> S -> S) (m : M T A) : M S A :=
  fun s => match m (proj s) with (t', r) => (upd t' s, r) end.

(** [l[i]], negative indices counting from the end. *)
Definition getitem {A} (l : list A) (i : Z) : result A :=
  let j := if i <? 0 then i + Z.of_nat (length l) else i in
  if j <? 0 then Raise (mkException IndexError "list index out of range")
  else match l !! Z.to_nat j with
       | Some a => Ok a
       | None => Raise (mkException IndexError "list index out of range")
       end.

(** Truth value of a [str]: false exactly for the empty string. *)
Definition truthy (s : string) : bool :=
  match s with EmptyString => false | String _ _ => true end.

(** [a or b] on strings. *)
Definition str_or (a b : string) : string := if truthy a then a else b.

(** Truth value of an [Optional[str]]. *)
Definition truthy_opt (o : option string) : bool :=
  match o with Some s => truthy s | None => false end.

(** Truth value of an object reference that may be [None]. *)
Definition present {A} (o : option A) : bool :=
  match o with Some _ => true | None => false end.

Definition NL : string := "
".

(** [str.isspace] on one character with code point below 256. *)
Definition isspace (c : ascii) : bool :=
  let n := nat_of_ascii c in
  ((9 <=? n) && (n <=? 13) || (28 <=? n) && (n <=? 32)
   || (n =? 133) || (n =? 160))%nat.

Fixpoint lstrip (s : string) : string :=
  match s with
  | EmptyString => EmptyString
  | String c s' => if isspace c then lstrip s' else s
  end.

(** Characters of [s] with the trailing whitespace removed. *)
Fixpoint rstrip (s : string) : string :=
  match s with
  | EmptyString => EmptyString
  | String c s' =>
      match rstrip s' with
      | EmptyString => if isspace c then EmptyString else String c EmptyString
      | r => String c r
      end
  end.

(** [s.strip()] *)
Definition strip (s : string) : string := rstrip (lstrip s).

(** [s[:n]] *)
Definition prefix_slice (n : nat) (s : string) : string := String.substring 0 n s.

(* ===================================================================== *)
(** ** Messages (langchain_core.messages as the program uses them)        *)
(* ===================================================================== *)

Record ToolCall := mkToolCall {
  tc_id : string;
  tc_name : string;
  tc_args : list (string * string)
}.

Inductive Message :=
| SystemMessage (content : string)
| HumanMessage (content : string)
| AIMessage (content : string) (tool_calls : list ToolCall)
| ToolMessage (content : string) (tool_call_id : string).

(** [message.content] *)
Definition content (m : Message) : string :=
  match m with
  | SystemMessage c | HumanMessage c | AIMessage c _ | ToolMessage c _ => c
  end.

(** [message.content = c] *)
Definition set_content (c : string) (m : Message) : Message :=
  match m with
  | SystemMessage _ => SystemMessage c
  | HumanMessage _ => HumanMessage c
  | AIMessage _ tcs => AIMessage c tcs
  | ToolMessage _ i => ToolMessage c i
  end.

Definition is_SystemMessage (m : Message) : bool :=
  match m with SystemMessage _ => true | _ => false end.
Definition is_HumanMessage (m : Message) : bool :=
  match m with HumanMessage _ => true | _ => false end.
Definition is_AIMessage (m : Message) : bool :=
  match m with AIMessage _ _ => true | _ => false end.

(** [getattr(message, "tool_calls")]: only an assistant message has the
    attribute; [None] here is [hasattr(message, "tool_calls") == False]. *)
Definition tool_calls_attr (m : Message) : option (list ToolCall) :=
  match m with AIMessage _ tcs => Some tcs | _ => None end.

(** What a node may put under ["messages"]: a message object, a bare string
    or a role-tagged dict. *)
Inductive MessageLike :=
| MsgObj (m : Message)
| MsgStr (s : string)
| MsgDict (role content : string).

(* ===================================================================== *)
(** ** src/core/state.py                                                  *)
(* ===================================================================== *)

(** [class State(TypedDict)]; [Msgs] is what sits under ["messages"]: the
    list of messages in a merged state, the raw user string in the dict
    built by [create_initial_state]. *)
Record StateOf (Msgs : Type) := mkState {
  messages : Msgs;
  success_criteria : string;
  feedback_on_work : option string;
  success_criteria_met : bool;
  user_input_needed : bool
}.
Arguments mkState {Msgs} _ _ _ _ _.
Arguments messages {Msgs} _.
Arguments success_criteria {Msgs} _.
Arguments feedback_on_work {Msgs} _.
Arguments success_criteria_met {Msgs} _.
Arguments user_input_needed {Msgs} _.

Abbreviation State := (StateOf (list Message)).

(** [class EvaluatorOutput(BaseModel)] *)
Record EvaluatorOutput := mkEvaluatorOutput {
  feedback : string;
  eo_success_criteria_met : bool;
  eo_user_input_needed : bool
}.

Definition default_success_criteria : string :=
  "The answer should be clear and accurate".

Definition create_initial_state (message success_criteria : string) : StateOf string :=
  {| messages := message;
     success_criteria := str_or success_criteria default_success_criteria;
     feedback_on_work := None;
     success_criteria_met := false;
     user_input_needed := false |}.

(** A partial state dict, as a node returns it: a key is absent ([None]) or
    carries a value. *)
Record Update := mkUpdate {
  upd_messages : option (list MessageLike);
  upd_success_criteria : option string;
  upd_feedback_on_work : option (option string);
  upd_success_criteria_met : option bool;
  upd_user_input_needed : option bool
}.

(** The dict [create_initial_state] returns, as the writes it makes when it
    is given to the graph: every key is present. *)
Definition input_writes (input : StateOf string) : Update :=
  {| upd_messages := Some [MsgStr (messages input)];
     upd_success_criteria := Some (success_criteria input);
     upd_feedback_on_work := Some (feedback_on_work input);
     upd_success_criteria_met := Some (success_criteria_met input);
     upd_user_input_needed := Some (user_input_needed input) |}.

(** Modelled from the spec: how the library behind [add_messages] reads a
    message-like value (the library is not part of src/). A message object
    is itself, a bare string is a Human message, a role-tagged dict is the
    message of that role; an unknown role is refused. *)
Definition convert_to_message (m : MessageLike) : result Message :=
  match m with
  | MsgObj m => Ok m
  | MsgStr s => Ok (HumanMessage s)
  | MsgDict role c =>
      if String.eqb role "user" || String.eqb role "human" then Ok (HumanMessage c)
      else if String.eqb role "assistant" || String.eqb role "ai" then Ok (AIMessage c [])
      else if String.eqb role "system" then Ok (SystemMessage c)
      else Raise (mkException ValueError ("Unexpected message type: " +:+ role))
  end.

Fixpoint convert_to_messages (l : list MessageLike) : result (list Message) :=
  match l with
  | [] => Ok []
  | m :: l' =>
      m' ← convert_to_message m;
      l'' ← convert_to_messages l';
      mret (m' :: l'')
  end.

(** Modelled from the spec: the reducer [add_messages] attached to the
    [messages] key of [State] (library code, not in src/). Spec, data model:
    append-only, new messages are concatenated and never replace existing
    ones. *)
Definition add_messages (left : list Message) (right : list MessageLike)
  : result (list Message) :=
  new ← convert_to_messages right;
  mret (left ++ new).

(** Modelled from the spec: the merge of a node's partial update into the
    state, one reducer per key: [messages] through [add_messages], every
    scalar key overwritten by the latest value; an absent key is kept. *)
Definition apply_update (st : State) (u : Update) : result State :=
  msgs ← match upd_messages u with
         | Some new => add_messages (messages st) new
         | None => Ok (messages st)
         end;
  mret {| messages := msgs;
          success_criteria := default (success_criteria st) (upd_success_criteria u);
          feedback_on_work := default (feedback_on_work st) (upd_feedback_on_work u);
          success_criteria_met := default (success_criteria_met st) (upd_success_criteria_met u);
          user_input_needed := default (user_input_needed st) (upd_user_input_needed u) |}.

(** The channels of a thread that has no checkpoint yet. The scalar keys
    have no value then; the first input writes all of them. *)
Definition empty_channels : State :=
  {| messages := []; success_criteria := ""; feedback_on_work := None;
     success_criteria_met := false; user_input_needed := false |}.

(* ===================================================================== *)
(** ** src/core/sidekick.py: the pure parts                               *)
(* ===================================================================== *)

(** [Sidekick._create_system_message]; [now] is
    [datetime.now().strftime("%Y-%m-%d %H:%M:%S")]. *)
Definition _create_system_message (now : string) (state : State) : string :=
  let system_message :=
    "You are a helpful assistant that can use tools to complete tasks.
You keep working on a task until either you have a question or clarification for the user, or the success criteria is met.
You have many tools to help you, including tools to browse the internet, navigating and retrieving web pages.
You have a tool to run python code, but note that you would need to include a print() statement if you wanted to receive output.
The current date and time is " +:+ now +:+ "

This is the success criteria:
" +:+ success_criteria state +:+ "
You should reply either with a question for the user about this assignment, or with your final response.
If you have a question for the user, you need to reply by clearly stating your question. An example might be:

Question: please clarify whether you want a summary or a detailed answer

If you've finished, reply with the final answer, and don't ask a question; simply reply with the answer.
" in
  if truthy_opt (feedback_on_work state) then
    system_message +:+ "

Previously you thought you completed the assignment, but your reply was rejected because the success criteria was not met.
Here is the feedback on why this was rejected:
" +:+ default "" (feedback_on_work state) +:+ "
With this feedback, please continue the assignment, ensuring that you meet the success criteria or have a question for the user."
  else system_message.

(** The loop of [Sidekick.worker] over [state["messages"]]: the first
    System message gets the new content, in place, and the loop breaks.
    Returns the list after the loop and [found_system_message]. *)
Fixpoint update_system_message (system_message : string) (messages : list Message)
  : list Message * bool :=
  match messages with
  | [] => ([], false)
  | message :: rest =>
      if is_SystemMessage message
      then (set_content system_message message :: rest, true)
      else let '(rest', found) := update_system_message system_message rest in
           (message :: rest', found)
  end.

(** What [Sidekick.worker] hands to the LLM: the state's messages after
    the loop, with a new System message in front when none was found. The
    list built in that case is local to the call. *)
Definition worker_messages (system_message : string) (state : State)
  : list Message * list Message :=
  let '(in_state, found_system_message) :=
    update_system_message system_message (messages state) in
  (in_state,
   if found_system_message then in_state
   else [SystemMessage system_message] ++ in_state).

Definition worker_router (state : State) : result string :=
  last_message ← getitem (messages state) (-1);
  match tool_calls_attr last_message with
  | Some (_ :: _) => mret "tools"
  | _ => mret "evaluator"
  end.

Fixpoint _format_conversation_from (conversation : string) (messages : list Message)
  : string :=
  match messages with
  | [] => conversation
  | message :: rest =>
      let conversation :=
        if is_HumanMessage message
        then conversation +:+ "User: " +:+ content message +:+ NL
        else if is_AIMessage message
        then let text := str_or (content message) "[Tools use]" in
             conversation +:+ "Assistant: " +:+ text +:+ NL
        else conversation in
      _format_conversation_from conversation rest
  end.

Definition _format_conversation (messages : list Message) : string :=
  _format_conversation_from ("Conversation history:" +:+ NL +:+ NL) messages.

(** The two messages [Sidekick.evaluator] sends to the structured-output
    service. *)
Definition evaluator_messages (state : State) (last_response : string) : list Message :=
  let system_message :=
    "You are an evaluator that determines if a task has been completed successfully by an Assistant.
Assess the Assistant's last response based on the given criteria. Respond with your feedback, and with your decision on whether the success criteria has been met,
and whether more input is needed from the user." in
  let user_message :=
    "You are evaluating a conversation between the User and Assistant. You decide what action to take based on the last response from the Assistant.

The entire conversation with the assistant, with the user's original request and all replies, is:
" +:+ _format_conversation (messages state) +:+ "

The success criteria for this assignment is:
" +:+ success_criteria state +:+ "

And the final response from the Assistant that you are evaluating is:
" +:+ last_response +:+ "

Respond with your feedback, and decide if the success criteria is met by this response.
Also, decide if more user input is required, either because the assistant has a question, needs clarification, or seems to be stuck and unable to answer without help.

The Assistant has access to a tool to write files. If the Assistant says they have written a file, then you can assume they have done so.
Overall you should give the Assistant the benefit of the doubt if they say they've done something. But you should reject if you feel that more work should go into this.
" in
  let user_message :=
    if truthy_opt (feedback_on_work state) then
      user_message +:+ "Also, note that in a prior attempt from the Assistant, you provided this feedback: " +:+ default "" (feedback_on_work state) +:+ "
If you're seeing the Assistant repeating the same mistakes, then consider responding that user input is required."
    else user_message in
  [SystemMessage system_message; HumanMessage user_message].

(** The dict [Sidekick.evaluator] returns for the record [eval_result]. *)
Definition evaluator_update (eval_result : EvaluatorOutput) : Update :=
  {| upd_messages :=
       Some [MsgDict "assistant"
               ("Evaluator Feedback on this answer: " +:+ feedback eval_result)];
     upd_success_criteria := None;
     upd_feedback_on_work := Some (Some (feedback eval_result));
     upd_success_criteria_met := Some (eo_success_criteria_met eval_result);
     upd_user_input_needed := Some (eo_user_input_needed eval_result) |}.

(** The dict [Sidekick.worker] returns for the answer of the LLM. *)
Definition worker_update (response : string * list ToolCall) : Update :=
  {| upd_messages := Some [MsgObj (AIMessage (fst response) (snd response))];
     upd_success_criteria := None; upd_feedback_on_work := None;
     upd_success_criteria_met := None; upd_user_input_needed := None |}.

Definition route_based_on_evaluation {Msgs} (state : StateOf Msgs) : string :=
  if success_criteria_met state || user_input_needed state then "END" else "worker".

(* ===================================================================== *)
(** ** The outside world                                                  *)
(* ===================================================================== *)

Record Browser := mkBrowser { browser_id : nat }.
Record Playwright := mkPlaywright { playwright_id : nat }.

(** Everything the program does to the outside, in the order it happens. *)
Inductive Event :=
| EvPlaywrightTools
| EvOtherTools
| EvChatOpenAI (model : string)
| EvWorkerLLM (input : list Message)
| EvEvaluatorLLM (input : list Message)
| EvToolCall (call : ToolCall)
| EvBrowserClose (b : Browser)
| EvPlaywrightStop (p : Playwright)
| EvPrint (line : string)
| EvLoggerInfo (line : string)
| EvLoggerError (line : string).

Abbreviation World := (list Event).

(** The services the program calls. The first argument of each is the
    number of events before the call. *)
Record Services := mkServices {
  (** [datetime.now().strftime("%Y-%m-%d %H:%M:%S")] *)
  now : nat -> string;
  (** [self.worker_llm_with_tools.invoke]: content and tool calls of the
      Assistant message it answers with *)
  worker_llm_invoke : nat -> list Message -> result (string * list ToolCall);
  (** [self.evaluator_llm_with_output.invoke] *)
  evaluator_llm_invoke : nat -> list Message -> result EvaluatorOutput;
  (** what a tool answers to a call; a failing or unknown tool answers with
      the text of its error *)
  tool_invoke : nat -> ToolCall -> string;
  browser_close : nat -> Browser -> result unit;
  playwright_stop : nat -> Playwright -> result unit;
  (** [config.OPENAI_API_KEY] *)
  OPENAI_API_KEY : string;
  (** starting Playwright and launching the browser: the browser tools and
      the two handles *)
  launch_browser : nat -> result (list string * Browser * Playwright);
  (** building the push, file, search, Wikipedia and Python tools *)
  external_tools : nat -> result (list string);
  (** constructing a chat model client *)
  new_ChatOpenAI : nat -> string -> result unit;
  (** the engine's bound on the number of node runs of one invocation *)
  recursion_limit : nat
}.

(** A model handle after [bind_tools] or [with_structured_output]. *)
Inductive Runnable :=
| bind_tools (model : string) (tools : list string)
| with_structured_output (model : string).

(** An edge of the graph under construction: [add_edge] or
    [add_conditional_edges] with its router and its path map. *)
Inductive Edge :=
| Direct (target : string)
| Conditional (path : State -> result string) (path_map : gmap string string).

(** A node reads the state and returns a partial update; the state comes
    back with it because a node may have changed a message in place. *)
Abbreviation Node := (State -> M World (State * Update)).

Record StateGraph := mkStateGraph {
  nodes : gmap string Node;
  edges : gmap string Edge
}.

Definition START : string := "__start__".
Definition END : string := "__end__".

Definition add_node (name : string) (action : Node) (g : StateGraph) : StateGraph :=
  {| nodes := <[name := action]> (nodes g); edges := edges g |}.
Definition add_edge (source target : string) (g : StateGraph) : StateGraph :=
  {| nodes := nodes g; edges := <[source := Direct target]> (edges g) |}.
Definition add_conditional_edges (source : string) (path : State -> result string)
    (path_map : gmap string string) (g : StateGraph) : StateGraph :=
  {| nodes := nodes g; edges := <[source := Conditional path path_map]> (edges g) |}.

(** [class Sidekick]: the attributes [__init__] creates. *)
Record Sidekick := mkSidekick {
  worker_llm_with_tools : option Runnable;
  evaluator_llm_with_output : option Runnable;
  tools : option (list string);
  graph : option StateGraph;
  sidekick_id : string;
  (** [MemorySaver()]: thread id to the latest checkpoint *)
  memory : gmap string State;
  browser : option Browser;
  playwright : option Playwright;
  _is_initialized : bool
}.

(** [Sidekick.__init__]; [uuid] is [str(uuid.uuid4())]. *)
Definition Sidekick__init__ (uuid : string) : Sidekick :=
  {| worker_llm_with_tools := None; evaluator_llm_with_output := None;
     tools := None; graph := None; sidekick_id := uuid; memory := ∅;
     browser := None; playwright := None; _is_initialized := false |}.

Definition set_worker_llm_with_tools (v : option Runnable) (s : Sidekick) : Sidekick :=
  mkSidekick v (evaluator_llm_with_output s) (tools s) (graph s) (sidekick_id s)
             (memory s) (browser s) (playwright s) (_is_initialized s).
Definition set_evaluator_llm_with_output (v : option Runnable) (s : Sidekick) : Sidekick :=
  mkSidekick (worker_llm_with_tools s) v (tools s) (graph s) (sidekick_id s)
             (memory s) (browser s) (playwright s) (_is_initialized s).
Definition set_tools (v : option (list string)) (s : Sidekick) : Sidekick :=
  mkSidekick (worker_llm_with_tools s) (evaluator_llm_with_output s) v (graph s)
             (sidekick_id s) (memory s) (browser s) (playwright s) (_is_initialized s).
Definition set_graph (v : option StateGraph) (s : Sidekick) : Sidekick :=
  mkSidekick (worker_llm_with_tools s) (evaluator_llm_with_output s) (tools s) v
             (sidekick_id s) (memory s) (browser s) (playwright s) (_is_initialized s).
Definition set_memory (v : gmap string State) (s : Sidekick) : Sidekick :=
  mkSidekick (worker_llm_with_tools s) (evaluator_llm_with_output s) (tools s) (graph s)
             (sidekick_id s) v (browser s) (playwright s) (_is_initialized s).
Definition set_browser (v : option Browser) (s : Sidekick) : Sidekick :=
  mkSidekick (worker_llm_with_tools s) (evaluator_llm_with_output s) (tools s) (graph s)
             (sidekick_id s) (memory s) v (playwright s) (_is_initialized s).
Definition set_playwright (v : option Playwright) (s : Sidekick) : Sidekick :=
  mkSidekick (worker_llm_with_tools s) (evaluator_llm_with_output s) (tools s) (graph s)
             (sidekick_id s) (memory s) (browser s) v (_is_initialized s).
Definition set__is_initialized (v : bool) (s : Sidekick) : Sidekick :=
  mkSidekick (worker_llm_with_tools s) (evaluator_llm_with_output s) (tools s) (graph s)
             (sidekick_id s) (memory s) (browser s) (playwright s) v.

(** A [Sidekick] object and the world it acts on: the state of its methods. *)
Record Machine := mkMachine { world : World; self : Sidekick }.

Definition in_world {A} (m : M World A) : M Machine A :=
  zoom world (fun w mc => mkMachine w (self mc)) m.
Definition set_self (f : Sidekick -> Sidekick) : M Machine unit :=
  modify (fun mc => mkMachine (world mc) (f (self mc))).
Definition get_self : M Machine Sidekick := fun mc => (mc, Ok (self mc)).

(** One call to a service: the event is recorded, then the service answers. *)
Definition call {A} (ev : Event) (service : nat -> result A) : M World A :=
  fun w => (w ++ [ev], service (length w)).
(** An effect that cannot fail. *)
Definition emit (ev : Event) : M World unit := fun w => (w ++ [ev], Ok tt).
Definition clock : M World nat := fun w => (w, Ok (length w)).

(** One entry of the history the chat window shows:
    [{"role": ..., "content": ...}]. *)
Record ChatEntry := mkChatEntry { entry_role : string; entry_content : string }.

(** Who holds the [Sidekick] in the chat window: the world and the session
    object, which is [None] until [setup] has returned one. *)
Record Session := mkSession { session_world : World; sidekick : option Sidekick }.

(* ===================================================================== *)
(** ** The program                                                        *)
(* ===================================================================== *)

Section Program.

Variable svc : Services.

(** *** src/tools/browser.py *)

Definition playwright_tools : M World (list string * Browser * Playwright) :=
  try_except
    (call EvPlaywrightTools (launch_browser svc))
    (fun e => raise (mkException RuntimeError
                       ("Failed to initialize Playwright tools: " +:+ str e))).

Definition cleanup_browser (browser : option Browser) (playwright : option Playwright)
  : M World unit :=
  try_except
    (_ ← match browser with
         | Some b => call (EvBrowserClose b) (fun n => browser_close svc n b)
         | None => mret tt
         end;
     match playwright with
     | Some p => call (EvPlaywrightStop p) (fun n => playwright_stop svc n p)
     | None => mret tt
     end)
    (fun e => emit (EvPrint ("Warning: Error during browser cleanup: " +:+ str e))).

(** *** src/tools/external.py, src/utils/config.py *)

Definition other_tools : M World (list string) :=
  call EvOtherTools (external_tools svc).

Definition config_validate : M World bool :=
  if negb (truthy (OPENAI_API_KEY svc))
  then raise (mkException ValueError "OPENAI_API_KEY is required")
  else mret true.

(** *** src/core/sidekick.py: the nodes *)

Definition worker (state : State) : M World (State * Update) :=
  n ← clock;
  let system_message := _create_system_message (now svc n) state in
  let '(in_state, messages) := worker_messages system_message state in
  response ← call (EvWorkerLLM messages)
               (fun n => worker_llm_invoke svc n messages);
  mret (mkState in_state (success_criteria state) (feedback_on_work state)
                (success_criteria_met state) (user_input_needed state),
        worker_update response).

Definition evaluator (state : State) : M World (State * Update) :=
  last_message ← lift_result (getitem (messages state) (-1));
  let last_response := content last_message in
  let evaluator_messages := evaluator_messages state last_response in
  eval_result ← call (EvEvaluatorLLM evaluator_messages)
                  (fun n => evaluator_llm_invoke svc n evaluator_messages);
  mret (state, evaluator_update eval_result).

Fixpoint run_tool_calls (calls : list ToolCall) : M World (list MessageLike) :=
  match calls with
  | [] => mret []
  | c :: rest =>
      out ← call (EvToolCall c) (fun n => Ok (tool_invoke svc n c));
      outs ← run_tool_calls rest;
      mret (MsgObj (ToolMessage out (tc_id c)) :: outs)
  end.

(** Modelled from the spec: the prebuilt tool node [ToolNode(tools=...)]
    (library code, not in src/). Spec, Tool Dispatcher: every call of the
    last Assistant message is resolved, a failure of a tool is the content
    of its result, and each result carries the id of its call. *)
Definition ToolNode (state : State) : M World (State * Update) :=
  last_message ← lift_result (getitem (messages state) (-1));
  match tool_calls_attr last_message with
  | Some calls =>
      outs ← run_tool_calls calls;
      mret (state, {| upd_messages := Some outs;
                      upd_success_criteria := None; upd_feedback_on_work := None;
                      upd_success_criteria_met := None; upd_user_input_needed := None |})
  | None => raise (mkException ValueError "Last message is not an AIMessage")
  end.

(** *** src/core/sidekick.py: the graph *)

(** The graph [Sidekick.build_graph] assembles, call after call. *)
Definition workflow : StateGraph :=
  let graph_builder := mkStateGraph ∅ ∅ in
  let graph_builder := add_node "worker" worker graph_builder in
  let graph_builder := add_node "tools" ToolNode graph_builder in
  let graph_builder := add_node "evaluator" evaluator graph_builder in
  let graph_builder :=
    add_conditional_edges "worker" worker_router
      (<["tools" := "tools"]> (<["evaluator" := "evaluator"]> ∅)) graph_builder in
  let graph_builder := add_edge "tools" "worker" graph_builder in
  let graph_builder :=
    add_conditional_edges "evaluator"
      (fun state => Ok (route_based_on_evaluation state))
      (<["worker" := "worker"]> (<["END" := END]> ∅)) graph_builder in
  let graph_builder := add_edge START "worker" graph_builder in
  graph_builder.

Definition build_graph : M Machine unit :=
  try_except
    (set_self (set_graph (Some workflow)))
    (fun e => raise (mkException RuntimeError ("Failed to build graph: " +:+ str e))).

(** Modelled from the spec: the engine behind the compiled graph (library
    code, not in src/). Spec, Orchestrator and design notes: a trampoline
    over the table of nodes and edges, one node at a time; a node's update
    is merged with the reducers, the router of the node then picks the next
    node, and the checkpoint of the thread is replaced only when the node
    has completed; the run stops at the terminal marker. *)
Definition next_node (g : StateGraph) (node : string) (st : State) : result string :=
  match edges g !! node with
  | Some (Direct target) => Ok target
  | Some (Conditional path path_map) =>
      r ← path st;
      match path_map !! r with
      | Some target => Ok target
      | None => Raise (mkException ValueError ("Unknown branch: " +:+ r))
      end
  | None => Ok END
  end.

Definition put_checkpoint (thread_id : string) (st : State) : M Machine unit :=
  set_self (fun s => set_memory (<[thread_id := st]> (memory s)) s).

Fixpoint run_nodes (fuel : nat) (g : StateGraph) (thread_id node : string) (st : State)
  : M Machine State :=
  if String.eqb node END then mret st
  else match fuel with
       | O => raise (mkException GraphRecursionError "Recursion limit reached")
       | S fuel' =>
           match nodes g !! node with
           | None => raise (mkException ValueError ("Unknown node: " +:+ node))
           | Some action =>
               '(st1, update) ← in_world (action st);
               st2 ← lift_result (apply_update st1 update);
               next ← lift_result (next_node g node st2);
               _ ← put_checkpoint thread_id st2;
               run_nodes fuel' g thread_id next st2
           end
       end.

(** Modelled from the spec: [graph.ainvoke(state, config)] (library code,
    not in src/). Spec, Superstep Driver: loads the state of the thread,
    appends the new Human message, drives the machine from its entry until
    the terminal marker; the result is the final merged state. *)
Definition ainvoke (g : StateGraph) (input : StateOf string) (thread_id : string)
  : M Machine State :=
  this ← get_self;
  let loaded := default empty_channels (memory this !! thread_id) in
  st0 ← lift_result (apply_update loaded (input_writes input));
  first ← lift_result (next_node g START st0);
  _ ← put_checkpoint thread_id st0;
  run_nodes (recursion_limit svc) g thread_id first st0.

(** *** src/core/sidekick.py: the methods *)

Definition setup : M Machine unit :=
  try_except
    (_ ← in_world config_validate;
     '(tools0, browser0, playwright0) ← in_world playwright_tools;
     _ ← set_self (set_tools (Some tools0));
     _ ← set_self (set_browser (Some browser0));
     _ ← set_self (set_playwright (Some playwright0));
     more ← in_world other_tools;
     _ ← set_self (set_tools (Some (tools0 ++ more)));
     _ ← in_world (call (EvChatOpenAI "gpt-4o-mini")
                     (fun n => new_ChatOpenAI svc n "gpt-4o-mini"));
     _ ← set_self (set_worker_llm_with_tools
                     (Some (bind_tools "gpt-4o-mini" (tools0 ++ more))));
     _ ← in_world (call (EvChatOpenAI "gpt-4o-mini")
                     (fun n => new_ChatOpenAI svc n "gpt-4o-mini"));
     _ ← set_self (set_evaluator_llm_with_output
                     (Some (with_structured_output "gpt-4o-mini")));
     _ ← build_graph;
     set_self (set__is_initialized true))
    (fun e => raise (mkException RuntimeError ("Failed to setup Sidekick: " +:+ str e))).

Definition run_superstep (message success_criteria : string) (history : list ChatEntry)
  : M Machine (list ChatEntry) :=
  this ← get_self;
  if negb (_is_initialized this)
  then raise (mkException RuntimeError "Sidekick not initialized. Call setup() first.")
  else
    try_except
      (let thread_id := sidekick_id this in
       let state := create_initial_state message success_criteria in
       result ← match graph this with
                | Some g => ainvoke g state thread_id
                | None => raise (mkException AttributeError
                            "'NoneType' object has no attribute 'ainvoke'")
                end;
       let user := mkChatEntry "user" message in
       reply_message ← lift_result (getitem (messages result) (-2));
       let reply := mkChatEntry "assistant" (content reply_message) in
       feedback_message ← lift_result (getitem (messages result) (-1));
       let feedback := mkChatEntry "assistant" (content feedback_message) in
       mret (history ++ [user; reply; feedback]))
      (fun e => raise (mkException RuntimeError ("Failed to run superstep: " +:+ str e))).

Definition cleanup : M Machine unit :=
  try_finally
    (try_except
       (this ← get_self;
        if present (browser this) && present (playwright this)
        then _ ← in_world (cleanup_browser (browser this) (playwright this));
             _ ← set_self (set_browser None);
             set_self (set_playwright None)
        else mret tt)
       (fun e => in_world (emit (EvPrint ("Warning: Error during cleanup: " +:+ str e)))))
    (set_self (set__is_initialized false)).

(** *** src/ui/gradio_app.py *)

(** A method call on the session object; on [None] it is the attribute
    error Python raises. *)
Definition on_sidekick {A} (method : string) (m : M Machine A) : M Session A :=
  fun s =>
    match sidekick s with
    | Some sk =>
        match m (mkMachine (session_world s) sk) with
        | (mc, r) => (mkSession (world mc) (Some (self mc)), r)
        end
    | None =>
        (s, Raise (mkException AttributeError
                     ("'NoneType' object has no attribute '" +:+ method +:+ "'")))
    end.

Definition logger (ev : Event) : M Session unit :=
  zoom session_world (fun w s => mkSession w (sidekick s)) (emit ev).

(** [SidekickUI.process_message]. The session object it is given and gives
    back is the one of the state; the value returned is the history. *)
Definition process_message (message success_criteria : string) (history : list ChatEntry)
  : M Session (list ChatEntry) :=
  try_except
    (if negb (truthy (strip message)) then mret history
     else
       _ ← logger (EvLoggerInfo ("Processing message: " +:+ prefix_slice 100 message +:+ "..."));
       results ← on_sidekick "run_superstep"
                   (run_superstep message success_criteria history);
       _ ← logger (EvLoggerInfo "Message processed successfully");
       mret results)
    (fun e =>
       _ ← logger (EvLoggerError ("Error processing message: " +:+ str e));
       let error_message :=
         mkChatEntry "assistant" ("Sorry, I encountered an error: " +:+ str e) in
       mret (history ++ [error_message])).

(** The states an instance goes through: created by [__init__], then any
    sequence of calls to its methods, while the world moves on. *)
Inductive instance_state : Machine -> Prop :=
| created uuid w :
    instance_state (mkMachine w (Sidekick__init__ uuid))
| after_setup m :
    instance_state m -> instance_state (fst (setup m))
| after_run_superstep m message success_criteria history :
    instance_state m ->
    instance_state (fst (run_superstep message success_criteria history m))
| after_cleanup m :
    instance_state m -> instance_state (fst (cleanup m))
| after_event m ev :
    instance_state m -> instance_state (mkMachine (world m ++ [ev]) (self m)).

End Program.

(* ===================================================================== *)
(** ** Vocabulary of the properties                                       *)
(* ===================================================================== *)

(** The tool calls a message carries: none when it has no such attribute. *)
Definition carried_tool_calls (m : Message) : list ToolCall :=
  default [] (tool_calls_attr m).

Fixpoint count_system (l : list Message) : nat :=
  match l with
  | [] => O
  | m :: l' => if is_SystemMessage m then S (count_system l') else count_system l'
  end.

(** A state whose messages hold no System message. *)
Definition no_system (st : State) : Prop := count_system (messages st) = 0%nat.

(** The messages of [st] are kept, in order, at the front of those of [st']. *)
Definition extends (st st' : State) : Prop := messages st `prefix_of` messages st'.

(** The state of a thread once the input of a superstep is merged in. *)
Definition seeded (loaded : State) (input : StateOf string) : State :=
  {| messages := messages loaded ++ [HumanMessage (messages input)];
     success_criteria := success_criteria input;
     feedback_on_work := feedback_on_work input;
     success_criteria_met := success_criteria_met input;
     user_input_needed := user_input_needed input |}.

(** The persisted transcript of the thread of a [Sidekick]. *)
Definition transcript (sk : Sidekick) : list Message :=
  match memory sk !! sidekick_id sk with
  | Some st => messages st
  | None => []
  end.

(** A message that is empty or made of whitespace only. *)
Fixpoint only_whitespace (s : string) : bool :=
  match s with
  | EmptyString => true
  | String c s' => isspace c && only_whitespace s'
  end.

(** Both handles are held, or neither. *)
Definition handles_paired (sk : Sidekick) : Prop :=
  present (browser sk) = present (playwright sk).

(** What holds of every state an instance goes through. *)
Definition sound (svc : Services) (mc : Machine) : Prop :=
  handles_paired (self mc)
  /\ count_system (transcript (self mc)) = 0%nat
  /\ (_is_initialized (self mc) = true -> graph (self mc) = Some (workflow svc)).

(** *** A scripted world, to run the program on

    The worker asks for one page, answers once it has seen a tool result,
    and the evaluator accepts. *)
Definition has_tool_result (l : list Message) : bool :=
  existsb (fun m => match m with ToolMessage _ _ => true | _ => false end) l.

Definition scripted : Services :=
  {| now := fun _ => "2025-01-01 00:00:00";
     worker_llm_invoke := fun _ msgs =>
       if has_tool_result msgs then Ok ("It is an example page.", [])
       else Ok ("", [mkToolCall "call_1" "navigate_browser"
                       [("url", "https://example.com")]]);
     evaluator_llm_invoke := fun _ _ => Ok (mkEvaluatorOutput "Good." true false);
     tool_invoke := fun _ _ => "Example Domain";
     browser_close := fun _ _ => Ok tt;
     playwright_stop := fun _ _ => Ok tt;
     OPENAI_API_KEY := "sk-test";
     launch_browser := fun _ => Ok (["navigate_browser"], mkBrowser 1, mkPlaywright 1);
     external_tools := fun _ => Ok ["send_push_notification"];
     new_ChatOpenAI := fun _ _ => Ok tt;
     recursion_limit := 25 |}.

(** The same world with the evaluator service down. *)
Definition evaluator_down : Services :=
  {| now := now scripted;
     worker_llm_invoke := fun _ _ => Ok ("Done.", []);
     evaluator_llm_invoke := fun _ _ =>
       Raise (mkException ServiceError "Connection error.");
     tool_invoke := tool_invoke scripted;
     browser_close := browser_close scripted;
     playwright_stop := playwright_stop scripted;
     OPENAI_API_KEY := "sk-test";
     launch_browser := launch_browser scripted;
     external_tools := external_tools scripted;
     new_ChatOpenAI := new_ChatOpenAI scripted;
     recursion_limit := 25 |}.

Definition fresh : Machine := mkMachine [] (Sidekick__init__ "thread-1").
Definition ready : Machine := fst (setup scripted fresh).

Definition one_question : State :=
  {| messages := [HumanMessage "hi"];
     success_criteria := default_success_criteria;
     feedback_on_work := None;
     success_criteria_met := false;
     user_input_needed := false |}.

Definition answered : State :=
  {| messages := [HumanMessage "hi"; AIMessage "Hello." []];
     success_criteria := default_success_criteria;
     feedback_on_work := None;
     success_criteria_met := false;
     user_input_needed := false |}.

(** An instance set up in the world where the evaluator is down. *)
Definition stuck : Machine := fst (setup evaluator_down fresh).

(** Scenario A of the specification: one turn on the scripted world. *)
Definition first_turn : Machine * result (list ChatEntry) :=
  run_superstep scripted "Summarize https://example.com" "One sentence summary" [] ready.

(** A turn in the world where the evaluator is down, as the chat window
    starts it. *)
Definition failed_turn : Machine * result (list ChatEntry) :=
  run_superstep evaluator_down "hi" "" []
    (mkMachine [EvLoggerInfo "Processing message: hi..."] (self stuck)).

(* ===================================================================== *)
(** ** The rest of the program                                            *)
(* ===================================================================== *)

(** *** src/utils/config.py *)

(** [str.lower] on one character with code point below 256: the letters
    A to Z, and the accented capitals from 192 to 222 but for the
    multiplication sign, move 32 places up. *)
Definition lower_char (c : ascii) : ascii :=
  let n := nat_of_ascii c in
  if ((65 <=? n) && (n <=? 90)
      || (192 <=? n) && (n <=? 222) && negb (n =? 215))%nat
  then ascii_of_nat (n + 32)
  else c.

(** [s.lower()] *)
Fixpoint lower (s : string) : string :=
  match s with
  | EmptyString => EmptyString
  | String c s' => String (lower_char c) (lower s')
  end.

Module Config.

(** The attributes of [class Config], set when the module is imported. *)
Record t := mk {
  OPENAI_API_KEY : string;
  PUSHOVER_TOKEN : option string;
  PUSHOVER_USER : option string;
  SERPER_API_KEY : option string;
  APP_ENV : string;
  APP_DEBUG : bool;
  APP_HOST : string;
  APP_PORT : Z;
  LOG_LEVEL : string;
  LOG_FILE : string
}.

(** [os.getenv(key, default)] on the environment [environ]. *)
Definition getenv (environ : gmap string string) (key default_value : string) : string :=
  default default_value (environ !! key).

(** The body of [class Config], run on the environment left by
    [load_dotenv]; [int] is Python's conversion of a string to an integer,
    which raises on a string that is no number. *)
Definition load (int : string -> result Z) (environ : gmap string string) : result t :=
  port ← int (getenv environ "APP_PORT" "7860");
  mret {| OPENAI_API_KEY := getenv environ "OPENAI_API_KEY" "";
          PUSHOVER_TOKEN := environ !! "PUSHOVER_TOKEN";
          PUSHOVER_USER := environ !! "PUSHOVER_USER";
          SERPER_API_KEY := environ !! "SERPER_API_KEY";
          APP_ENV := getenv environ "APP_ENV" "development";
          APP_DEBUG := String.eqb (lower (getenv environ "APP_DEBUG" "true")) "true";
          APP_HOST := getenv environ "APP_HOST" "0.0.0.0";
          APP_PORT := port;
          LOG_LEVEL := getenv environ "LOG_LEVEL" "INFO";
          LOG_FILE := getenv environ "LOG_FILE" "logs/sidekick.log" |}.

Definition validate (cls : t) : result bool :=
  if negb (truthy (OPENAI_API_KEY cls))
  then Raise (mkException ValueError "OPENAI_API_KEY is required")
  else Ok true.

Definition is_production (cls : t) : bool :=
  String.eqb (lower (APP_ENV cls)) "production".

Definition is_development (cls : t) : bool :=
  String.eqb (lower (APP_ENV cls)) "development".

End Config.

(** *** src/main.py *)

Definition is_ValueError (e : Exception) : bool :=
  match exc_type e with ValueError => true | _ => false end.

(** [validate_environment]; every [print] is one event. *)
Definition validate_environment (config : Config.t) : M World bool :=
  try_except
    (_ ← lift_result (Config.validate config);
     mret true)
    (fun e =>
       if is_ValueError e then
         _ ← emit (EvPrint ("❌ Configuration Error: " +:+ str e));
         _ ← emit (EvPrint (NL +:+ "Please check your environment variables:"));
         _ ← emit (EvPrint "1. Copy env.example to .env");
         _ ← emit (EvPrint "2. Set your OPENAI_API_KEY");
         _ ← emit (EvPrint "3. Optionally set other API keys");
         mret false
       else
         _ ← emit (EvPrint ("❌ Unexpected Error: " +:+ str e));
         mret false).

(** *** src/tools/external.py *)

(** One call to [requests.post]. *)
Record PostRequest := mkPostRequest {
  post_url : string;
  post_data : list (string * string);
  post_timeout : Z
}.

(** What such a call ends in: an answer, on which [raise_for_status] is
    silent ([None]) or raises an HTTP error of the given text; a
    [requests.RequestException] of the given text; any other exception. *)
Inductive PostOutcome :=
| Responded (http_error : option string)
| RequestException (text : string)
| OtherException (e : Exception).

(** The constructors of the tools [other_tools] builds on; each answers
    with the names of the tools it gives, or raises. *)
Record ToolBackends := mkToolBackends {
  (** [os.makedirs] and [FileManagementToolkit(...).get_tools()] *)
  file_management_tools : result (list string);
  (** [GoogleSerperAPIWrapper()] *)
  serper_wrapper : result unit;
  (** [WikipediaQueryRun(api_wrapper=WikipediaAPIWrapper())] *)
  wikipedia_tool : result string;
  (** [PythonREPLTool()] *)
  python_repl_tool : result string
}.

Module External.

(** [push]; the state is the list of the requests sent so far, and
    [requests_post] answers the request sent after [n] others. *)
Definition push (config : Config.t) (requests_post : nat -> PostRequest -> PostOutcome)
    (text : string) : M (list PostRequest) string :=
  if negb (truthy_opt (Config.PUSHOVER_TOKEN config))
     || negb (truthy_opt (Config.PUSHOVER_USER config))
  then mret "Push notifications not configured"
  else fun sent =>
    let request :=
      {| post_url := "https://api.pushover.net/1/messages.json";
         post_data := [("token", default "" (Config.PUSHOVER_TOKEN config));
                       ("user", default "" (Config.PUSHOVER_USER config));
                       ("message", text)];
         post_timeout := 10 |} in
    (sent ++ [request],
     match requests_post (length sent) request with
     | Responded None => Ok "Push notification sent successfully"
     | Responded (Some e) => Ok ("Failed to send push notification: " +:+ e)
     | RequestException e => Ok ("Failed to send push notification: " +:+ e)
     | OtherException e => Raise e
     end).

Definition get_file_tools (backends : ToolBackends) : M World (list string) :=
  try_except
    (lift_result (file_management_tools backends))
    (fun e =>
       _ ← emit (EvPrint ("Warning: Failed to initialize file tools: " +:+ str e));
       mret []).

(** [other_tools]: the names of the tools, in the order of the list. *)
Definition other_tools (config : Config.t) (backends : ToolBackends)
  : M World (list string) :=
  let tools := [] in
  let tools := tools ++ ["send_push_notification"] in
  file_tools ← get_file_tools backends;
  let tools := tools ++ file_tools in
  tools ← (if truthy_opt (Config.SERPER_API_KEY config)
           then _ ← lift_result (serper_wrapper backends);
                mret (tools ++ ["search"])
           else mret tools);
  tools ← try_except
            (wiki_tool ← lift_result (wikipedia_tool backends);
             mret (tools ++ [wiki_tool]))
            (fun e =>
               _ ← emit (EvPrint ("Warning: Failed to initialize Wikipedia tool: " +:+ str e));
               mret tools);
  tools ← try_except
            (python_repl ← lift_result (python_repl_tool backends);
             mret (tools ++ [python_repl]))
            (fun e =>
               _ ← emit (EvPrint ("Warning: Failed to initialize Python REPL tool: " +:+ str e));
               mret tools);
  mret tools.

End External.

(** *** src/ui/gradio_app.py: [class SidekickUI] *)

(** The attributes of a [SidekickUI]. *)
Record SidekickUI := mkSidekickUI {
  ui_sidekick : option Sidekick;
  ui__is_initialized : bool
}.

Definition SidekickUI__init__ : SidekickUI :=
  {| ui_sidekick := None; ui__is_initialized := false |}.

(** A [SidekickUI], the world, and the number of identifiers drawn so far
    from [uuid.uuid4]. *)
Record Window := mkWindow {
  window_world : World;
  window_self : SidekickUI;
  window_uuids : nat
}.

Section Window.

Variable svc : Services.
(** [str(uuid.uuid4())], by the number of identifiers drawn before. *)
Variable uuid4 : nat -> string.

Definition window_logger (ev : Event) : M Window unit :=
  fun u => (mkWindow (window_world u ++ [ev]) (window_self u) (window_uuids u), Ok tt).

Definition get_window_self : M Window SidekickUI := fun u => (u, Ok (window_self u)).

Definition set_window_self (f : SidekickUI -> SidekickUI) : M Window unit :=
  fun u => (mkWindow (window_world u) (f (window_self u)) (window_uuids u), Ok tt).

(** [Sidekick()] *)
Definition new_Sidekick : M Window Sidekick :=
  fun u => (mkWindow (window_world u) (window_self u) (S (window_uuids u)),
            Ok (Sidekick__init__ (uuid4 (window_uuids u)))).

(** A method call on [self.sidekick]: the object stays in the attribute,
    with what the method did to it, also when the method raises. *)
Definition on_own_sidekick {A} (method : string) (m : M Machine A) : M Window A :=
  fun u =>
    match ui_sidekick (window_self u) with
    | Some sk =>
        match m (mkMachine (window_world u) sk) with
        | (mc, r) =>
            (mkWindow (world mc)
               (mkSidekickUI (Some (self mc)) (ui__is_initialized (window_self u)))
               (window_uuids u), r)
        end
    | None =>
        (u, Raise (mkException AttributeError
                     ("'NoneType' object has no attribute '" +:+ method +:+ "'")))
    end.

(** A method call on an object held in a local variable: the object comes
    back with what the method did to it; when the method raises, the
    object is not seen again. *)
Definition on_local {A} (sk : Sidekick) (m : M Machine A) : M Window (Sidekick * A) :=
  fun u =>
    match m (mkMachine (window_world u) sk) with
    | (mc, Ok a) =>
        (mkWindow (world mc) (window_self u) (window_uuids u), Ok (self mc, a))
    | (mc, Raise e) =>
        (mkWindow (world mc) (window_self u) (window_uuids u), Raise e)
    end.

(** [SidekickUI.setup]; the value returned is [self.sidekick]. *)
Definition SidekickUI_setup : M Window (option Sidekick) :=
  try_except
    (this ← get_window_self;
     _ ← (if negb (ui__is_initialized this) then
            _ ← window_logger (EvLoggerInfo "Initializing Sidekick...");
            sk ← new_Sidekick;
            _ ← set_window_self (fun ui => mkSidekickUI (Some sk) (ui__is_initialized ui));
            _ ← on_own_sidekick "setup" (setup svc);
            _ ← set_window_self (fun ui => mkSidekickUI (ui_sidekick ui) true);
            window_logger (EvLoggerInfo "Sidekick initialized successfully")
          else mret tt);
     this ← get_window_self;
     mret (ui_sidekick this))
    (fun e =>
       _ ← window_logger (EvLoggerError ("Failed to initialize Sidekick: " +:+ str e));
       _ ← set_window_self (fun ui => mkSidekickUI (ui_sidekick ui) false);
       raise e).

(** [SidekickUI.reset]: the new message, the new success criteria, the new
    history and the session object. *)
Definition SidekickUI_reset : M Window (string * string * list ChatEntry * Sidekick) :=
  try_except
    (_ ← window_logger (EvLoggerInfo "Resetting conversation...");
     this ← get_window_self;
     _ ← (if present (ui_sidekick this) && ui__is_initialized this
          then on_own_sidekick "cleanup" (cleanup svc)
          else mret tt);
     new_sidekick ← new_Sidekick;
     '(new_sidekick, _) ← on_local new_sidekick (setup svc);
     _ ← set_window_self (fun _ => mkSidekickUI (Some new_sidekick) true);
     _ ← window_logger (EvLoggerInfo "Conversation reset successfully");
     mret ("", "", [], new_sidekick))
    (fun e =>
       _ ← window_logger (EvLoggerError ("Error resetting conversation: " +:+ str e));
       this ← get_window_self;
       sk ← match ui_sidekick this with
            | Some sk => mret sk
            | None => new_Sidekick
            end;
       mret ("", "", [], sk)).

End Window.

(** *** More of the vocabulary *)

(** The messages [_format_conversation] prints. *)
Definition printed (m : Message) : bool := is_HumanMessage m || is_AIMessage m.

(** The line [_format_conversation] prints for a message, empty for the
    messages it skips. *)
Definition conversation_line (m : Message) : string :=
  match m with
  | HumanMessage c => "User: " +:+ c +:+ NL
  | AIMessage c _ => "Assistant: " +:+ str_or c "[Tools use]" +:+ NL
  | _ => ""
  end.

(** A target of an edge that the graph knows: a node, or the end. *)
Definition known_target (g : StateGraph) (target : string) : Prop :=
  target = END \/ is_Some (nodes g !! target).

(** The event is an attempt to close the browser [b]. *)
Definition closes (b : Browser) (ev : Event) : bool :=
  match ev with
  | EvBrowserClose b' => Nat.eqb (browser_id b) (browser_id b')
  | _ => false
  end.

(** *** More scripted worlds *)

(** The worker answers at once and the evaluator asks for the user. *)
Definition direct : Services :=
  {| now := now scripted;
     worker_llm_invoke := fun _ _ => Ok ("Which page?", []);
     evaluator_llm_invoke := fun _ _ => Ok (mkEvaluatorOutput "A fair question." false true);
     tool_invoke := tool_invoke scripted;
     browser_close := browser_close scripted;
     playwright_stop := playwright_stop scripted;
     OPENAI_API_KEY := "sk-test";
     launch_browser := launch_browser scripted;
     external_tools := external_tools scripted;
     new_ChatOpenAI := new_ChatOpenAI scripted;
     recursion_limit := 25 |}.

(** No API key. *)
Definition no_key : Services :=
  {| now := now scripted;
     worker_llm_invoke := worker_llm_invoke scripted;
     evaluator_llm_invoke := evaluator_llm_invoke scripted;
     tool_invoke := tool_invoke scripted;
     browser_close := browser_close scripted;
     playwright_stop := playwright_stop scripted;
     OPENAI_API_KEY := "";
     launch_browser := launch_browser scripted;
     external_tools := external_tools scripted;
     new_ChatOpenAI := new_ChatOpenAI scripted;
     recursion_limit := 25 |}.

(** The browser starts, then the chat model client cannot be built. *)
Definition no_model : Services :=
  {| now := now scripted;
     worker_llm_invoke := worker_llm_invoke scripted;
     evaluator_llm_invoke := evaluator_llm_invoke scripted;
     tool_invoke := tool_invoke scripted;
     browser_close := browser_close scripted;
     playwright_stop := playwright_stop scripted;
     OPENAI_API_KEY := "sk-test";
     launch_browser := launch_browser scripted;
     external_tools := external_tools scripted;
     new_ChatOpenAI := fun _ _ => Raise (mkException ServiceError "Invalid API key.");
     recursion_limit := 25 |}.

(** The worker's LLM is down. *)
Definition worker_down : Services :=
  {| now := now scripted;
     worker_llm_invoke := fun _ _ => Raise (mkException ServiceError "Rate limit.");
     evaluator_llm_invoke := evaluator_llm_invoke scripted;
     tool_invoke := tool_invoke scripted;
     browser_close := browser_close scripted;
     playwright_stop := playwright_stop scripted;
     OPENAI_API_KEY := "sk-test";
     launch_browser := launch_browser scripted;
     external_tools := external_tools scripted;
     new_ChatOpenAI := new_ChatOpenAI scripted;
     recursion_limit := 25 |}.

Definition numbered (n : nat) : string :=
  match n with O => "thread-1" | 1%nat => "thread-2" | _ => "thread-3" end.

Definition empty_window : Window := mkWindow [] SidekickUI__init__ 0.

Definition pushover_config : Config.t :=
  {| Config.OPENAI_API_KEY := "sk-test";
     Config.PUSHOVER_TOKEN := Some "token";
     Config.PUSHOVER_USER := Some "user";
     Config.SERPER_API_KEY := None;
     Config.APP_ENV := "Production";
     Config.APP_DEBUG := false;
     Config.APP_HOST := "0.0.0.0";
     Config.APP_PORT := 7860;
     Config.LOG_LEVEL := "INFO";
     Config.LOG_FILE := "logs/sidekick.log" |}.

Definition broken_backends : ToolBackends :=
  {| file_management_tools := Raise (mkException ServiceError "read-only file system");
     serper_wrapper := Ok tt;
     wikipedia_tool := Raise (mkException ServiceError "no module named wikipedia");
     python_repl_tool := Ok "Python_REPL" |}.

(** A conversion that knows the default port only. *)
Definition decimal_7860 (s : string) : result Z :=
  if String.eqb s "7860" then Ok 7860
  else Raise (mkException ValueError "invalid literal for int() with base 10").

Definition key_environ : gmap string string := {["OPENAI_API_KEY" := "sk-test"]}.

Definition loaded_config : Config.t :=
  {| Config.OPENAI_API_KEY := "sk-test";
     Config.PUSHOVER_TOKEN := None;
     Config.PUSHOVER_USER := None;
     Config.SERPER_API_KEY := None;
     Config.APP_ENV := "development";
     Config.APP_DEBUG := true;
     Config.APP_HOST := "0.0.0.0";
     Config.APP_PORT := 7860;
     Config.LOG_LEVEL := "INFO";
     Config.LOG_FILE := "logs/sidekick.log" |}.

(** Pushover accepts every request. *)
Definition accepting (n : nat) (request : PostRequest) : PostOutcome := Responded None.

(** The window once its set up has returned on the scripted world. *)
Definition opened : Window := fst (SidekickUI_setup scripted numbered empty_window).

(** The window after a set up on the world without API key. *)
Definition unopened : Window := fst (SidekickUI_setup no_key numbered empty_window).

(** The opened window, seen from the world where no chat model client
    can be built. *)
Definition reopened : Window * result (string * string * list ChatEntry * Sidekick) :=
  SidekickUI_reset scripted numbered opened.

Definition not_reopened : Window * result (string * string * list ChatEntry * Sidekick) :=
  SidekickUI_reset no_model numbered opened.

(** Instances set up on the other worlds. *)
Definition ready_direct : Machine := fst (setup direct fresh).
Definition ready_worker_down : Machine := fst (setup worker_down fresh).
Definition half_ready : Machine := fst (setup no_model fresh).

(** The session object of the opened window. *)
Definition ready_opened : Machine :=
  fst (setup scripted (mkMachine [EvLoggerInfo "Initializing Sidekick..."]
                         (Sidekick__init__ "thread-1"))).

(* ===================================================================== *)
(** ** Properties                                                         *)
(* ===================================================================== *)

(** *** Indexing *)

Lemma getitem_neg {A} (l : list A) (k : nat) :
  (0 < k)%nat ->
  getitem l (- Z.of_nat k) =
    if decide (k <= length l)%nat
    then match l !! (length l - k)%nat with
         | Some a => Ok a
         | None => Raise (mkException IndexError "list index out of range")
         end
    else Raise (mkException IndexError "list index out of range").
Proof.
  intros Hk. unfold getitem.
  destruct (Z.ltb_spec (- Z.of_nat k) 0) as [_|H]; [|lia].
  destruct (Z.ltb_spec (- Z.of_nat k + Z.of_nat (length l)) 0) as [Hlt|Hge];
    destruct (decide (k <= length l)%nat) as [Hle|Hnle]; try lia; try done.
  replace (Z.to_nat (- Z.of_nat k + Z.of_nat (length l))) with (length l - k)%nat by lia.
  done.
Qed.

Lemma getitem_last {A} (init : list A) (x : A) : getitem (init ++ [x]) (-1) = Ok x.
Proof.
  rewrite (getitem_neg _ 1) by lia.
  rewrite length_app. simpl length.
  destruct (decide _) as [_|H]; [|lia].
  rewrite lookup_app_r by lia.
  by replace (length init + 1 - 1 - length init)%nat with 0%nat by lia.
Qed.

Lemma getitem_last_but_one {A} (init : list A) (x y : A) :
  getitem (init ++ [x; y]) (-2) = Ok x.
Proof.
  rewrite (getitem_neg _ 2) by lia.
  rewrite length_app. simpl length.
  destruct (decide _) as [_|H]; [|lia].
  rewrite lookup_app_r by lia.
  by replace (length init + 2 - 2 - length init)%nat with 0%nat by lia.
Qed.

Lemma getitem_neg_inv {A} (l : list A) (k : nat) (x : A) :
  (0 < k)%nat -> getitem l (- Z.of_nat k) = Ok x ->
  exists pre post, l = pre ++ x :: post /\ length post = (k - 1)%nat.
Proof.
  intros Hk. rewrite getitem_neg by done.
  destruct (decide _) as [Hle|]; [|done].
  destruct (l !! _) as [a|] eqn:Hl; [|done].
  intros [= ->].
  apply list_elem_of_split_length in Hl as (pre & post & -> & Hlen).
  exists pre, post. split; [done|].
  rewrite length_app in Hlen, Hle. simpl in *. lia.
Qed.

Lemma getitem_nil {A} (i : Z) :
  getitem (@nil A) i = Raise (mkException IndexError "list index out of range").
Proof.
  unfold getitem. cbn.
  destruct (i <? 0); destruct (_ <? 0); try done; by rewrite lookup_nil.
Qed.

(** *** The graph *)

Section Workflow.
Variable svc : Services.
Lemma workflow_edge_start : edges (workflow svc) !! START = Some (Direct "worker").
Proof. reflexivity. Qed.
Lemma workflow_edge_tools : edges (workflow svc) !! "tools" = Some (Direct "worker").
Proof. reflexivity. Qed.
Lemma workflow_edge_worker :
  edges (workflow svc) !! "worker" =
    Some (Conditional worker_router (<["tools" := "tools"]> (<["evaluator" := "evaluator"]> ∅))).
Proof. reflexivity. Qed.
Lemma workflow_edge_evaluator :
  edges (workflow svc) !! "evaluator" =
    Some (Conditional (fun state => Ok (route_based_on_evaluation state))
            (<["worker" := "worker"]> (<["END" := END]> ∅))).
Proof. reflexivity. Qed.
Lemma workflow_node_worker : nodes (workflow svc) !! "worker" = Some (worker svc).
Proof. reflexivity. Qed.
Lemma workflow_node_tools : nodes (workflow svc) !! "tools" = Some (ToolNode svc).
Proof. reflexivity. Qed.
Lemma workflow_node_evaluator : nodes (workflow svc) !! "evaluator" = Some (evaluator svc).
Proof. reflexivity. Qed.

Lemma next_node_start st : next_node (workflow svc) START st = Ok "worker".
Proof. unfold next_node. by rewrite workflow_edge_start. Qed.
Lemma next_node_tools st : next_node (workflow svc) "tools" st = Ok "worker".
Proof. unfold next_node. by rewrite workflow_edge_tools. Qed.
Lemma next_node_evaluator st :
  next_node (workflow svc) "evaluator" st =
    Ok (if success_criteria_met st || user_input_needed st then END else "worker").
Proof.
  unfold next_node. rewrite workflow_edge_evaluator. cbn.
  unfold route_based_on_evaluation. destruct (_ || _); reflexivity.
Qed.
Lemma next_node_worker st :
  next_node (workflow svc) "worker" st = worker_router st.
Proof.
  unfold next_node. rewrite workflow_edge_worker. cbn.
  unfold worker_router. destruct (getitem _ _) as [m|e]; [|done]. cbn.
  destruct (tool_calls_attr m) as [[|]|]; reflexivity.
Qed.
End Workflow.

(** *** The routers and the initial state *)

(** C1. For every conversation state the evaluation router returns the
    terminal answer ["END"] exactly when [success_criteria_met] or
    [user_input_needed] holds; in every other case it returns ["worker"],
    and it has no third answer. In the graph the answer ["END"] is the
    terminal marker and ["worker"] the worker node. *)
Theorem route_based_on_evaluation_terminal_iff (state : State) :
  (route_based_on_evaluation state = "END"
     <-> success_criteria_met state || user_input_needed state = true)
  /\ (route_based_on_evaluation state <> "END"
        -> route_based_on_evaluation state = "worker")
  /\ (route_based_on_evaluation state = "END"
        \/ route_based_on_evaluation state = "worker")
  /\ (forall svc, next_node (workflow svc) "evaluator" state =
        Ok (if success_criteria_met state || user_input_needed state
            then END else "worker")).
Proof.
  split; [|split; [|split]]; [| | |intros svc; apply next_node_evaluator];
    unfold route_based_on_evaluation;
    destruct (success_criteria_met state || user_input_needed state);
    try split; intros; try done; auto.
Qed.

Lemma route_based_on_evaluation_terminal_iff_witness :
  route_based_on_evaluation one_question = "worker".
Proof.
  apply (route_based_on_evaluation_terminal_iff one_question). discriminate.
Defined.

(** C2. On a state with a non-empty message list the worker router answers
    ["tools"] when the last message carries one or more tool calls and
    ["evaluator"] otherwise; two states whose last messages carry the same
    tool calls get the same answer, whatever else they hold. *)
Theorem worker_router_last_message (state : State) (init : list Message) (last_message : Message) :
  messages state = init ++ [last_message] ->
  worker_router state =
    Ok (if bool_decide (carried_tool_calls last_message = []) then "evaluator" else "tools")
  /\ (forall (state' : State) init' last_message',
        messages state' = init' ++ [last_message'] ->
        carried_tool_calls last_message' = carried_tool_calls last_message ->
        worker_router state' = worker_router state).
Proof.
  assert (Hone : forall (st : State) i l, messages st = i ++ [l] ->
            worker_router st =
              Ok (if bool_decide (carried_tool_calls l = []) then "evaluator" else "tools")).
  { intros st i l Hm. unfold worker_router. rewrite Hm, getitem_last. cbn.
    unfold carried_tool_calls.
    destruct (tool_calls_attr l) as [[|c cs]|]; reflexivity. }
  intros Hm. split; [by eapply Hone|].
  intros st' i' l' Hm' Heq.
  rewrite (Hone _ _ _ Hm), (Hone _ _ _ Hm'), Heq. reflexivity.
Qed.

(** C5. [create_initial_state msg ""] has the fixed default success
    criteria, [create_initial_state msg X] with [X] not empty has [X]; in
    both cases [feedback_on_work] is absent and the two flags are false. *)
Theorem create_initial_state_success_criteria (message criteria : string) :
  let state := create_initial_state message criteria in
  (criteria = "" -> success_criteria state = "The answer should be clear and accurate")
  /\ (criteria <> "" -> success_criteria state = criteria)
  /\ feedback_on_work state = None
  /\ success_criteria_met state = false
  /\ user_input_needed state = false
  /\ messages state = message.
Proof.
  cbn. unfold str_or. destruct criteria; cbn; repeat split; intros; done.
Qed.

(** *** The evaluator *)

(** C6. When the evaluator runs on a state and the structured-output
    service returns a record, the update it returns, once merged, appends
    exactly one Assistant message whose content is "Evaluator Feedback on
    this answer: " followed by the feedback, and overwrites
    [feedback_on_work], [success_criteria_met] and [user_input_needed] with
    the values of the record. *)
Theorem evaluator_update_merged (svc : Services) (state : State) (w : World)
    (init : list Message) (last_message : Message) (eval_result : EvaluatorOutput) :
  messages state = init ++ [last_message] ->
  evaluator_llm_invoke svc (length w)
    (evaluator_messages state (content last_message)) = Ok eval_result ->
  exists update merged,
    evaluator svc state w =
      (w ++ [EvEvaluatorLLM (evaluator_messages state (content last_message))],
       Ok (state, update))
    /\ apply_update state update = Ok merged
    /\ messages merged =
         messages state ++
           [AIMessage ("Evaluator Feedback on this answer: " +:+ feedback eval_result) []]
    /\ feedback_on_work merged = Some (feedback eval_result)
    /\ success_criteria_met merged = eo_success_criteria_met eval_result
    /\ user_input_needed merged = eo_user_input_needed eval_result
    /\ success_criteria merged = success_criteria state.
Proof.
  intros Hm Hllm.
  exists (evaluator_update eval_result). eexists.
  split; [|split; [reflexivity|]].
  - pose proof (getitem_last init last_message) as Hlast. rewrite <- Hm in Hlast.
    unfold evaluator, lift_result, call, mbind, M_bind, mret, M_ret.
    rewrite Hlast, Hllm. reflexivity.
  - cbn. repeat split; reflexivity.
Qed.

(** *** The chat window *)

Lemma lstrip_only_whitespace s : only_whitespace s = true -> lstrip s = "".
Proof.
  induction s as [|c s IH]; [done|]. cbn.
  destruct (isspace c); [|done]. cbn. exact IH.
Qed.

Lemma strip_only_whitespace s : only_whitespace s = true -> strip s = "".
Proof. intros H. unfold strip. by rewrite lstrip_only_whitespace. Qed.

(** C10. When the submitted message is empty or made of whitespace only,
    [process_message] returns the history unchanged; the session object
    and the world are the ones it was given: nothing is logged and no
    superstep is run. *)
Theorem process_message_blank (svc : Services) (message success_criteria : string)
    (history : list ChatEntry) (s : Session) :
  only_whitespace message = true ->
  process_message svc message success_criteria history s = (s, Ok history).
Proof.
  intros H. unfold process_message, try_except.
  rewrite strip_only_whitespace by done. reflexivity.
Qed.

(** C9. When the superstep raises, [process_message] does not raise: it
    returns the input history followed by exactly one assistant entry
    whose content reports the error. *)
Theorem process_message_failed_superstep (svc : Services)
    (message success_criteria : string) (history : list ChatEntry)
    (w : World) (sk : Sidekick) (mc : Machine) (e : Exception) :
  truthy (strip message) = true ->
  run_superstep svc message success_criteria history
    (mkMachine (w ++ [EvLoggerInfo ("Processing message: " +:+ prefix_slice 100 message +:+ "...")]) sk)
    = (mc, Raise e) ->
  process_message svc message success_criteria history (mkSession w (Some sk)) =
    (mkSession (world mc ++ [EvLoggerError ("Error processing message: " +:+ str e)])
               (Some (self mc)),
     Ok (history ++ [mkChatEntry "assistant" ("Sorry, I encountered an error: " +:+ str e)])).
Proof.
  intros Hmsg Hrun. unfold process_message, try_except.
  set (ev := EvLoggerInfo ("Processing message: " +:+ _)) in *.
  rewrite Hmsg.
  unfold mbind, M_bind, logger, zoom, emit, on_sidekick; cbn [negb sidekick session_world].
  rewrite Hrun. reflexivity.
Qed.

Lemma process_message_never_raises (svc : Services) message success_criteria history s :
  exists s' history', process_message svc message success_criteria history s = (s', Ok history').
Proof.
  unfold process_message, try_except.
  destruct (negb (truthy (strip message))); [by eexists _, _|].
  unfold mbind, M_bind, logger, zoom, emit, on_sidekick; cbn [sidekick session_world].
  destruct (sidekick s) as [sk|]; [|by eexists _, _].
  match goal with
  | |- context [run_superstep ?a ?b ?c ?d ?m] =>
      destruct (run_superstep a b c d m) as [mc [h|e]]
  end; by eexists _, _.
Qed.

(** *** The engine *)

Lemma set_memory_same (sk : Sidekick) : sk = set_memory (memory sk) sk.
Proof. by destruct sk. Qed.

Lemma convert_to_messages_objects (l : list Message) :
  convert_to_messages (MsgObj <$> l) = Ok l.
Proof. induction l as [|m l IH]; [done|]. cbn. rewrite IH. done. Qed.

Section Engine.
Variable svc : Services.

Lemma run_nodes_inv (I : State -> Prop) (R : State -> State -> Prop)
    (g : StateGraph) (tid : string) :
  (forall st, R st st) ->
  (forall a b c, R a b -> R b c -> R a c) ->
  (forall node action st w w' st1 upd st2,
      nodes g !! node = Some action -> I st ->
      action st w = (w', Ok (st1, upd)) -> apply_update st1 upd = Ok st2 ->
      I st2 /\ R st st2) ->
  forall fuel node st mc mc' r,
    I st -> memory (self mc) !! tid = Some st ->
    run_nodes fuel g tid node st mc = (mc', r) ->
    exists st', memory (self mc') !! tid = Some st' /\ I st' /\ R st st'
      /\ (forall x, r = Ok x -> x = st')
      /\ self mc' = set_memory (memory (self mc')) (self mc).
Proof.
  intros Hrefl Htrans Hnodes.
  induction fuel as [|fuel IH]; intros node st mc mc' r HI Hmem Hrun;
    cbn [run_nodes] in Hrun; destruct (String.eqb node END).
  - injection Hrun as <- <-. exists st.
    repeat split; auto using set_memory_same. by intros x [= ->].
  - injection Hrun as <- <-. exists st.
    repeat split; auto using set_memory_same. done.
  - injection Hrun as <- <-. exists st.
    repeat split; auto using set_memory_same. by intros x [= ->].
  - destruct (nodes g !! node) as [action|] eqn:Hnode.
    2:{ injection Hrun as <- <-. exists st.
        repeat split; auto using set_memory_same. done. }
    unfold mbind, M_bind, in_world, zoom, lift_result in Hrun.
    destruct (action st (world mc)) as [w' [[st1 upd]|e]] eqn:Hact.
    2:{ injection Hrun as <- <-. exists st. cbn.
        repeat split; auto using set_memory_same. done. }
    cbn [self world] in Hrun.
    destruct (apply_update st1 upd) as [st2|e] eqn:Hupd.
    2:{ injection Hrun as <- <-. exists st. cbn.
        repeat split; auto using set_memory_same. done. }
    destruct (next_node g node st2) as [next|e] eqn:Hnext.
    2:{ injection Hrun as <- <-. exists st. cbn.
        repeat split; auto using set_memory_same. done. }
    destruct (Hnodes _ _ _ _ _ _ _ _ Hnode HI Hact Hupd) as [HI2 HR2].
    unfold put_checkpoint, set_self, modify in Hrun. cbn [self world] in Hrun.
    apply IH in Hrun as (st' & Hmem' & HI' & HR' & Hres & Hself); auto.
    2:{ cbn. apply lookup_insert_eq. }
    exists st'. repeat split; eauto.
Qed.
End Engine.

(** *** The nodes keep a transcript free of System messages *)

Lemma count_system_app (l k : list Message) :
  count_system (l ++ k) = (count_system l + count_system k)%nat.
Proof.
  induction l as [|m l IH]; [done|]. cbn.
  destruct (is_SystemMessage m); cbn; by rewrite IH.
Qed.

Lemma update_system_message_none (c : string) (l : list Message) :
  count_system l = 0%nat -> update_system_message c l = (l, false).
Proof.
  induction l as [|m l IH]; [done|]. cbn.
  destruct (is_SystemMessage m); [done|]. intros H. by rewrite IH.
Qed.

Lemma update_system_message_first (c old : string) (pre post : list Message) :
  count_system pre = 0%nat ->
  update_system_message c (pre ++ SystemMessage old :: post) =
    (pre ++ SystemMessage c :: post, true).
Proof.
  induction pre as [|m pre IH]; [done|]. cbn.
  destruct (is_SystemMessage m); [done|]. intros H. by rewrite IH.
Qed.

Lemma update_system_message_count (c : string) (l : list Message) :
  count_system (fst (update_system_message c l)) = count_system l
  /\ length (fst (update_system_message c l)) = length l
  /\ snd (update_system_message c l) = negb (Nat.eqb (count_system l) 0).
Proof.
  induction l as [|m l IH]; [done|]. cbn.
  destruct (is_SystemMessage m) eqn:Hm.
  - destruct m; try done.
  - destruct (update_system_message c l) as [l' found]. cbn in *.
    rewrite Hm. destruct IH as (-> & -> & ->). done.
Qed.

Section Nodes.
Variable svc : Services.

Lemma worker_eq (state : State) (w : World) :
  let system_message := _create_system_message (now svc (length w)) state in
  let wm := worker_messages system_message state in
  worker svc state w =
    (w ++ [EvWorkerLLM (snd wm)],
     match worker_llm_invoke svc (length w) (snd wm) with
     | Ok response =>
         Ok (mkState (fst wm) (success_criteria state) (feedback_on_work state)
                     (success_criteria_met state) (user_input_needed state),
             worker_update response)
     | Raise e => Raise e
     end).
Proof.
  cbv zeta. unfold worker, clock, call, mbind, M_bind, mret, M_ret.
  destruct (worker_messages _ state) as [in_state msgs]. cbn [fst snd].
  destruct (worker_llm_invoke svc (length w) msgs); reflexivity.
Qed.

Lemma run_tool_calls_total (calls : list ToolCall) (w : World) :
  exists w' outs, run_tool_calls svc calls w = (w', Ok (MsgObj <$> outs))
    /\ count_system outs = 0%nat /\ length outs = length calls.
Proof.
  revert w. induction calls as [|c calls IH]; intros w.
  - by exists w, [].
  - cbn [run_tool_calls]. unfold mbind, M_bind, call.
    destruct (IH (w ++ [EvToolCall c])) as (w' & outs & -> & Hc & Hl).
    exists w', (ToolMessage (tool_invoke svc (length w) c) (tc_id c) :: outs).
    cbn. by rewrite Hl.
Qed.

Lemma worker_step st w w' st1 upd st2 :
  no_system st -> worker svc st w = (w', Ok (st1, upd)) ->
  apply_update st1 upd = Ok st2 ->
  no_system st2 /\ extends st st2.
Proof.
  unfold no_system, extends. intros Hno. rewrite worker_eq. cbv zeta.
  unfold worker_messages. rewrite update_system_message_none by done. cbn [fst snd].
  destruct (worker_llm_invoke _ _ _) as [[c tcs]|e]; [|done].
  intros [= <- <- <-]. cbn. intros [= <-]. cbn.
  rewrite count_system_app, Hno. split; [done|]. by apply prefix_app_r.
Qed.

Lemma ToolNode_step st w w' st1 upd st2 :
  no_system st -> ToolNode svc st w = (w', Ok (st1, upd)) ->
  apply_update st1 upd = Ok st2 ->
  no_system st2 /\ extends st st2.
Proof.
  unfold no_system, extends, ToolNode, mbind, M_bind, lift_result. intros Hno.
  destruct (getitem _ _) as [m|e]; [|done].
  destruct (tool_calls_attr m) as [calls|]; [|done].
  destruct (run_tool_calls_total calls w) as (w1 & outs & -> & Hc & _).
  intros [= <- <- <-]. unfold apply_update. cbn [upd_messages].
  unfold add_messages. rewrite convert_to_messages_objects. cbn.
  intros [= <-]. cbn. rewrite count_system_app, Hno, Hc.
  split; [done|]. by apply prefix_app_r.
Qed.

Lemma evaluator_step st w w' st1 upd st2 :
  no_system st -> evaluator svc st w = (w', Ok (st1, upd)) ->
  apply_update st1 upd = Ok st2 ->
  no_system st2 /\ extends st st2.
Proof.
  unfold no_system, extends, evaluator, mbind, M_bind, lift_result, call. intros Hno.
  destruct (getitem _ _) as [m|e]; [|done].
  destruct (evaluator_llm_invoke _ _ _) as [out|e]; [|done].
  intros [= <- <- <-]. cbn. intros [= <-]. cbn.
  rewrite count_system_app, Hno. split; [done|]. by apply prefix_app_r.
Qed.

Lemma workflow_nodes_inv node action :
  nodes (workflow svc) !! node = Some action ->
  action = worker svc \/ action = ToolNode svc \/ action = evaluator svc.
Proof.
  unfold workflow, add_node, add_edge, add_conditional_edges. cbn [nodes].
  rewrite !lookup_insert_Some, lookup_empty.
  intros [[_ <-]|[_ [[_ <-]|[_ [[_ <-]|[_ ?]]]]]]; auto; done.
Qed.

Lemma workflow_step node action st w w' st1 upd st2 :
  nodes (workflow svc) !! node = Some action -> no_system st ->
  action st w = (w', Ok (st1, upd)) -> apply_update st1 upd = Ok st2 ->
  no_system st2 /\ extends st st2.
Proof.
  intros Hn. destruct (workflow_nodes_inv _ _ Hn) as [->|[->| ->]];
    eauto using worker_step, ToolNode_step, evaluator_step.
Qed.

End Nodes.

(** *** One superstep *)

Section Superstep.
Variable svc : Services.

Lemma apply_update_input (loaded : State) (input : StateOf string) :
  apply_update loaded (input_writes input) = Ok (seeded loaded input).
Proof. reflexivity. Qed.

Lemma ainvoke_result_persisted g input tid mc mc' r :
  ainvoke svc g input tid mc = (mc', r) ->
  (forall result, r = Ok result -> memory (self mc') !! tid = Some result)
  /\ self mc' = set_memory (memory (self mc')) (self mc).
Proof.
  unfold ainvoke, get_self, mbind, M_bind, lift_result.
  rewrite apply_update_input.
  destruct (next_node g START _) as [first|e].
  2:{ intros [= <- <-]. split; [done|apply set_memory_same]. }
  unfold put_checkpoint, set_self, modify. intros Hrun.
  eapply (run_nodes_inv (fun _ => True) (fun _ _ => True)) in Hrun
    as (st' & Hmem & _ & _ & Hres & Hself); auto.
  2:{ cbn. apply lookup_insert_eq. }
  split; [|exact Hself].
  intros result Hr. by rewrite (Hres _ Hr).
Qed.

Lemma ainvoke_workflow input tid mc mc' r :
  let loaded := default empty_channels (memory (self mc) !! tid) in
  no_system loaded ->
  ainvoke svc (workflow svc) input tid mc = (mc', r) ->
  exists st' new,
    memory (self mc') !! tid = Some st'
    /\ messages st' = messages loaded ++ HumanMessage (messages input) :: new
    /\ no_system st'
    /\ self mc' = set_memory (memory (self mc')) (self mc).
Proof.
  cbv zeta. intros Hno.
  unfold ainvoke, get_self, mbind, M_bind, lift_result.
  rewrite apply_update_input, next_node_start.
  unfold put_checkpoint, set_self, modify. intros Hrun.
  eapply (run_nodes_inv no_system extends) in Hrun
    as (st' & Hmem & Hno' & [new Hext] & _ & Hself).
  - exists st', new. split; [exact Hmem|]. split; [|split; [exact Hno'|exact Hself]].
    rewrite Hext. cbn. by rewrite <- app_assoc.
  - intros st. unfold extends. done.
  - intros a b c. unfold extends. by etrans.
  - intros. eapply workflow_step; eauto.
  - unfold no_system, seeded in *. cbn. rewrite count_system_app, Hno. done.
  - cbn. apply lookup_insert_eq.
Qed.

Lemma run_superstep_self message success_criteria history mc mc' r :
  run_superstep svc message success_criteria history mc = (mc', r) ->
  self mc' = set_memory (memory (self mc')) (self mc).
Proof.
  unfold run_superstep, get_self, mbind, M_bind, try_except, lift_result, raise.
  destruct (negb (_is_initialized (self mc))).
  { intros [= <- <-]. apply set_memory_same. }
  destruct (graph (self mc)) as [g|].
  2:{ intros [= <- <-]. apply set_memory_same. }
  destruct (ainvoke svc g _ _ mc) as [mc1 r1] eqn:Hinv.
  apply ainvoke_result_persisted in Hinv as [_ Hself].
  destruct r1 as [result|e]; [|by intros [= <- <-]].
  destruct (getitem (messages result) (-2)); [|by intros [= <- <-]].
  destruct (getitem (messages result) (-1)); by intros [= <- <-].
Qed.

(** C3. When [run_superstep] returns without error, what it returns is the
    input history followed by exactly three entries, in this order: a user
    entry with the input message, an assistant entry with the content of
    the second-to-last message of the final merged state and an assistant
    entry with the content of its last message. The final merged state is
    the checkpoint of the thread after the call. *)
Theorem run_superstep_history (message success_criteria : string)
    (history history' : list ChatEntry) (mc mc' : Machine) :
  run_superstep svc message success_criteria history mc = (mc', Ok history') ->
  exists (result : State) (earlier : list Message) (reply feedback : Message),
    memory (self mc') !! sidekick_id (self mc') = Some result
    /\ messages result = earlier ++ [reply; feedback]
    /\ history' = history ++ [mkChatEntry "user" message;
                              mkChatEntry "assistant" (content reply);
                              mkChatEntry "assistant" (content feedback)].
Proof.
  intros Hrun. pose proof (run_superstep_self _ _ _ _ _ _ Hrun) as Hself.
  revert Hrun.
  unfold run_superstep, get_self, mbind, M_bind, try_except, lift_result, raise.
  destruct (negb (_is_initialized (self mc))); [done|].
  destruct (graph (self mc)) as [g|]; [|done].
  destruct (ainvoke svc g _ _ mc) as [mc1 r1] eqn:Hinv.
  apply ainvoke_result_persisted in Hinv as [Hres _].
  destruct r1 as [result|e]; [|done].
  specialize (Hres _ eq_refl).
  destruct (getitem (messages result) (-2)) as [reply|e] eqn:H2; [|done].
  destruct (getitem (messages result) (-1)) as [fb|e] eqn:H1; [|done].
  intros [= <- <-].
  apply (getitem_neg_inv _ 2) in H2 as (earlier & post & Hm & Hlen); [|lia].
  destruct post as [|last [|? ?]]; try done.
  assert (fb = last) as ->.
  { rewrite Hm in H1. change (earlier ++ [reply; last]) with (earlier ++ [reply] ++ [last]) in H1.
    rewrite app_assoc, getitem_last in H1. congruence. }
  exists result, earlier, reply, last. split; [|done].
  rewrite Hself. cbn. exact Hres.
Qed.

End Superstep.

(** *** Setup, cleanup and the states of an instance *)

Section Lifecycle.
Variable svc : Services.

Ltac destruct_service :=
  match goal with
    | |- context [truthy ?x] => destruct (truthy x)
    | |- context [launch_browser ?s ?n] =>
        destruct (launch_browser s n) as [[[? ?] ?]|?]
    | |- context [external_tools ?s ?n] => destruct (external_tools s n)
    | |- context [new_ChatOpenAI ?s ?n ?m] => destruct (new_ChatOpenAI s n m)
    | |- context [browser_close ?s ?n ?b] => destruct (browser_close s n b) as [[]|?]
    | |- context [playwright_stop ?s ?n ?p] => destruct (playwright_stop s n p) as [[]|?]
    end.
Ltac destruct_services :=
  repeat (destruct_service; cbn [negb fst snd world self]).

Lemma setup_effect (mc : Machine) :
  let mc' := fst (setup svc mc) in
  memory (self mc') = memory (self mc)
  /\ sidekick_id (self mc') = sidekick_id (self mc)
  /\ (handles_paired (self mc) -> handles_paired (self mc'))
  /\ ((_is_initialized (self mc') = _is_initialized (self mc)
       /\ graph (self mc') = graph (self mc))
      \/ graph (self mc') = Some (workflow svc)).
Proof.
  cbv zeta.
  unfold setup, try_except, mbind, M_bind, in_world, zoom, config_validate,
    playwright_tools, other_tools, call, try_except, set_self, modify, build_graph,
    raise, mret, M_ret, handles_paired.
  set (wf := workflow svc).
  cbn [world self negb fst snd].
  destruct_services; cbn; auto 10.
Qed.

Lemma cleanup_eq (mc : Machine) :
  cleanup svc mc =
    (mkMachine
       (if present (browser (self mc)) && present (playwright (self mc))
        then fst (cleanup_browser svc (browser (self mc)) (playwright (self mc)) (world mc))
        else world mc)
       (set__is_initialized false
          (if present (browser (self mc)) && present (playwright (self mc))
           then set_playwright None (set_browser None (self mc))
           else self mc)),
     Ok tt).
Proof.
  unfold cleanup, try_finally, try_except, mbind, M_bind, get_self, in_world, zoom,
    set_self, modify, mret, M_ret.
  destruct (present (browser (self mc)) && present (playwright (self mc))); [|reflexivity].
  unfold cleanup_browser, try_except, mbind, M_bind, call, emit, mret, M_ret.
  cbn [world self fst snd].
  destruct (browser (self mc)), (playwright (self mc)); destruct_services; reflexivity.
Qed.

Lemma cleanup_twice (mc : Machine) :
  cleanup svc (fst (cleanup svc mc)) = (fst (cleanup svc mc), Ok tt).
Proof.
  rewrite (cleanup_eq mc). cbn [fst]. rewrite cleanup_eq. cbn [self world].
  destruct (self mc) as [? ? ? ? ? ? [b|] [p|] ?]; reflexivity.
Qed.

Lemma cleanup_created (uuid : string) (w : World) :
  cleanup svc (mkMachine w (Sidekick__init__ uuid)) =
    (mkMachine w (Sidekick__init__ uuid), Ok tt).
Proof. by rewrite cleanup_eq. Qed.

Lemma cleanup_releases (mc : Machine) :
  handles_paired (self mc) ->
  browser (self (fst (cleanup svc mc))) = None
  /\ playwright (self (fst (cleanup svc mc))) = None.
Proof.
  rewrite cleanup_eq. unfold handles_paired. cbn [fst self].
  destruct (self mc) as [? ? ? ? ? ? [b|] [p|] ?]; cbn; done.
Qed.

(** Outside the states an instance goes through: on an object whose
    browser is set while its playwright is not, which no method of the
    class produces, the guard of [cleanup] is false and the field is kept. *)
Remark cleanup_unpaired_handle (w : World) (uuid : string) (b : Browser) :
  browser (self (fst (cleanup svc
    (mkMachine w (set_browser (Some b) (Sidekick__init__ uuid)))))) = Some b.
Proof. by rewrite cleanup_eq. Qed.

Lemma cleanup_no_handles (mc : Machine) :
  browser (self mc) = None \/ playwright (self mc) = None ->
  world (fst (cleanup svc mc)) = world mc.
Proof.
  rewrite cleanup_eq. cbn [fst world].
  intros [-> | ->]; [done|]. by rewrite andb_false_r.
Qed.

Lemma transcript_loaded (sk : Sidekick) :
  transcript sk = messages (default empty_channels (memory sk !! sidekick_id sk)).
Proof. unfold transcript. by destruct (memory sk !! sidekick_id sk). Qed.

Lemma run_superstep_effect message success_criteria history mc :
  sound svc mc ->
  let mc' := fst (run_superstep svc message success_criteria history mc) in
  self mc' = set_memory (memory (self mc')) (self mc)
  /\ count_system (transcript (self mc')) = 0%nat
  /\ (_is_initialized (self mc) = true ->
      exists new, transcript (self mc') =
                    transcript (self mc) ++ HumanMessage message :: new).
Proof.
  intros (Hpair & Hno & Hgraph). cbv zeta.
  destruct (run_superstep svc message success_criteria history mc) as [mc' r] eqn:Hrun.
  cbn [fst]. pose proof (run_superstep_self _ _ _ _ _ _ _ Hrun) as Hself.
  split; [exact Hself|]. revert Hrun.
  unfold run_superstep, get_self, mbind, M_bind, try_except, lift_result, raise.
  destruct (_is_initialized (self mc)) eqn:Hinit; cbn [negb].
  2:{ intros [= <- <-]. split; [exact Hno|done]. }
  rewrite (Hgraph eq_refl).
  destruct (ainvoke svc _ _ _ mc) as [mc1 r1] eqn:Hinv.
  apply ainvoke_workflow in Hinv as (st' & new & Hmem & Hmsgs & Hno' & _).
  2:{ unfold no_system. by rewrite <- transcript_loaded. }
  rewrite <- transcript_loaded in Hmsgs.
  assert (self mc' = self mc1 -> count_system (transcript (self mc')) = 0%nat
     /\ (true = true -> exists new0, transcript (self mc') =
            transcript (self mc) ++ HumanMessage message :: new0)) as Hgoal.
  { intros Heq. assert (transcript (self mc') = messages st') as ->.
    { unfold transcript. rewrite Hself. cbn. by rewrite Heq, Hmem. }
    split; [exact Hno'|]. intros _. exists new. exact Hmsgs. }
  destruct r1 as [result|e]; [|intros [= <- <-]; by apply Hgoal].
  destruct (getitem (messages result) (-2)); [|intros [= <- <-]; by apply Hgoal].
  destruct (getitem (messages result) (-1)); intros [= <- <-]; by apply Hgoal.
Qed.

Lemma instance_state_sound (mc : Machine) : instance_state svc mc -> sound svc mc.
Proof.
  induction 1 as [uuid w|m _ IH|m msg sc h _ IH|m _ IH|m ev _ IH].
  - repeat split; done.
  - destruct IH as (Hp & Hno & Hg).
    destruct (setup_effect m) as (Hmem & Hid & Hp' & Hgraph).
    split; [auto|]. split.
    + unfold transcript in *. by rewrite Hmem, Hid.
    + intros Hinit. destruct Hgraph as [[Hi' Hg']|Hg']; [|done].
      rewrite Hg'. apply Hg. by rewrite <- Hi'.
  - destruct (run_superstep_effect msg sc h m IH) as (Hself & Hno' & _).
    destruct IH as (Hp & Hno & Hg).
    split; [|split; [exact Hno'|]].
    + rewrite Hself. exact Hp.
    + rewrite Hself. exact Hg.
  - destruct IH as (Hp & Hno & Hg). rewrite cleanup_eq. cbn [fst self].
    split; [|split].
    + unfold handles_paired in *.
      destruct (self m) as [? ? ? ? ? ? [b|] [p|] ?]; cbn; done.
    + unfold transcript in *.
      destruct (self m) as [? ? ? ? ? ? [b|] [p|] ?]; cbn in *; done.
    + destruct (self m) as [? ? ? ? ? ? [b|] [p|] ?]; cbn; done.
  - exact IH.
Qed.

End Lifecycle.

(** *** Transcript, cleanup and the System message *)

(** C7. On an instance that is set up, each of two successive calls to
    [run_superstep] strictly lengthens the persisted transcript of the
    thread, and the transcript before a call is the front of the
    transcript after it: no earlier message is removed, changed or
    reordered. This holds whether the calls return or raise. *)
Theorem run_superstep_twice_transcript (svc : Services) (mc : Machine)
    (message1 criteria1 : string) (history1 : list ChatEntry)
    (message2 criteria2 : string) (history2 : list ChatEntry) (w : World) :
  instance_state svc mc ->
  _is_initialized (self mc) = true ->
  let mc1 := fst (run_superstep svc message1 criteria1 history1 mc) in
  let mc2 := fst (run_superstep svc message2 criteria2 history2
                    (mkMachine w (self mc1))) in
  (exists new, transcript (self mc1) =
                 transcript (self mc) ++ HumanMessage message1 :: new)
  /\ (exists new, transcript (self mc2) =
                    transcript (self mc1) ++ HumanMessage message2 :: new)
  /\ (length (transcript (self mc)) < length (transcript (self mc1))
      < length (transcript (self mc2)))%nat.
Proof.
  intros Hst Hinit. cbv zeta.
  pose proof (instance_state_sound _ _ Hst) as Hsound.
  destruct (run_superstep_effect svc message1 criteria1 history1 mc Hsound)
    as (Hself1 & Hno1 & Hgrow1).
  destruct (Hgrow1 Hinit) as [new1 Hnew1].
  set (mc1 := fst (run_superstep svc message1 criteria1 history1 mc)) in *.
  assert (Hsound1 : sound svc (mkMachine w (self mc1))).
  { destruct Hsound as (Hp & _ & Hg). rewrite Hself1.
    split; [exact Hp|]. split; [|exact Hg].
    cbn [self]. rewrite <- Hself1. exact Hno1. }
  assert (Hinit1 : _is_initialized (self (mkMachine w (self mc1))) = true).
  { cbn [self]. rewrite Hself1. exact Hinit. }
  destruct (run_superstep_effect svc message2 criteria2 history2 _ Hsound1)
    as (_ & _ & Hgrow2).
  destruct (Hgrow2 Hinit1) as [new2 Hnew2]. cbn [self] in Hnew2.
  split; [by exists new1|]. split; [by exists new2|].
  rewrite Hnew2, Hnew1, !length_app. cbn [length]. lia.
Qed.

(** C8. On every state an instance goes through, [cleanup] returns
    normally; afterwards the browser and playwright fields are absent and
    the initialized flag is false; a second call in a row changes neither
    the instance nor the world; on an instance that was never set up, and
    more generally on one that holds no browser, it does nothing to the
    world. *)
Theorem cleanup_idempotent_total (svc : Services) (mc : Machine) :
  instance_state svc mc ->
  let mc1 := fst (cleanup svc mc) in
  snd (cleanup svc mc) = Ok tt
  /\ browser (self mc1) = None
  /\ playwright (self mc1) = None
  /\ _is_initialized (self mc1) = false
  /\ cleanup svc mc1 = (mc1, Ok tt)
  /\ (forall uuid w0,
        cleanup svc (mkMachine w0 (Sidekick__init__ uuid)) =
          (mkMachine w0 (Sidekick__init__ uuid), Ok tt))
  /\ (browser (self mc) = None -> world mc1 = world mc).
Proof.
  intros Hst. cbv zeta.
  destruct (instance_state_sound _ _ Hst) as (Hp & _ & _).
  destruct (cleanup_releases svc mc Hp) as [Hb Hpw].
  split; [by rewrite cleanup_eq|]. split; [exact Hb|]. split; [exact Hpw|].
  split; [by rewrite cleanup_eq|]. split; [apply cleanup_twice|].
  split; [apply cleanup_created|].
  intros H. apply cleanup_no_handles. by left.
Qed.

(** C4, as amended. A run of the worker leaves the number of System
    messages of the merged state as it was: its update appends the
    Assistant answer and nothing else. On a state that holds a System
    message, the content of the first one is replaced in place; on a state
    that holds none, the new System message is put in front of the list
    sent to the LLM only, and the merged state still holds none. The list
    sent to the LLM holds exactly one System message whenever the state
    holds at most one. *)
Theorem worker_system_message (svc : Services) (state : State) (w : World)
    (response : string * list ToolCall) :
  let system_message := _create_system_message (now svc (length w)) state in
  let in_state := fst (worker_messages system_message state) in
  let sent := snd (worker_messages system_message state) in
  let mutated := mkState in_state (success_criteria state) (feedback_on_work state)
                   (success_criteria_met state) (user_input_needed state) in
  worker_llm_invoke svc (length w) sent = Ok response ->
  exists merged,
    worker svc state w = (w ++ [EvWorkerLLM sent], Ok (mutated, worker_update response))
    /\ apply_update mutated (worker_update response) = Ok merged
    /\ messages merged = in_state ++ [AIMessage (fst response) (snd response)]
    /\ count_system (messages merged) = count_system (messages state)
    /\ (count_system (messages state) = 0%nat ->
        in_state = messages state
        /\ sent = SystemMessage system_message :: messages state)
    /\ (forall pre old post,
          messages state = pre ++ SystemMessage old :: post ->
          count_system pre = 0%nat ->
          in_state = pre ++ SystemMessage system_message :: post /\ sent = in_state)
    /\ ((count_system (messages state) <= 1)%nat -> count_system sent = 1%nat).
Proof.
  cbv zeta. intros Hllm. eexists. split; [|split; [reflexivity|]].
  { rewrite worker_eq. cbv zeta. by rewrite Hllm. }
  cbn [messages]. unfold worker_messages.
  set (c := _create_system_message _ _).
  destruct (update_system_message_count c (messages state)) as (Hcount & Hlen & Hfound).
  destruct (update_system_message c (messages state)) as [in_state found] eqn:Hupd.
  cbn [fst snd] in *.
  split; [reflexivity|]. split.
  { rewrite count_system_app, Hcount. cbn. lia. }
  split.
  { intros Hz. rewrite update_system_message_none in Hupd by done.
    by injection Hupd as <- <-. }
  split.
  { intros pre old post Hm Hpre. rewrite Hm, update_system_message_first in Hupd by done.
    by injection Hupd as <- <-. }
  intros Hle. subst found.
  destruct (count_system (messages state)) as [|[|n]] eqn:Hc; cbn; lia.
Qed.

(** *** The properties at work on the scripted world *)

Lemma worker_router_last_message_witness :
  messages answered = [HumanMessage "hi"] ++ [AIMessage "Hello." []]
  /\ worker_router answered = Ok "evaluator".
Proof.
  split; [reflexivity|].
  apply (worker_router_last_message answered [HumanMessage "hi"] (AIMessage "Hello." [])).
  reflexivity.
Defined.

Lemma create_initial_state_success_criteria_witness :
  success_criteria (create_initial_state "hi" "") = "The answer should be clear and accurate"
  /\ success_criteria (create_initial_state "hi" "One sentence") = "One sentence".
Proof.
  split.
  - apply (create_initial_state_success_criteria "hi" ""). reflexivity.
  - apply (create_initial_state_success_criteria "hi" "One sentence"). discriminate.
Defined.

Lemma evaluator_update_merged_witness :
  exists update merged,
    evaluator scripted answered [] =
      ([] ++ [EvEvaluatorLLM (evaluator_messages answered (content (AIMessage "Hello." [])))],
       Ok (answered, update))
    /\ apply_update answered update = Ok merged
    /\ messages merged =
         messages answered ++
           [AIMessage ("Evaluator Feedback on this answer: "
                       +:+ feedback (mkEvaluatorOutput "Good." true false)) []]
    /\ feedback_on_work merged = Some (feedback (mkEvaluatorOutput "Good." true false))
    /\ success_criteria_met merged =
         eo_success_criteria_met (mkEvaluatorOutput "Good." true false)
    /\ user_input_needed merged =
         eo_user_input_needed (mkEvaluatorOutput "Good." true false)
    /\ success_criteria merged = success_criteria answered.
Proof.
  exact (evaluator_update_merged scripted answered [] [HumanMessage "hi"]
           (AIMessage "Hello." []) (mkEvaluatorOutput "Good." true false)
           eq_refl eq_refl).
Defined.

Lemma process_message_blank_witness :
  only_whitespace "  " = true
  /\ process_message scripted "  " "" [] (mkSession [] (Some (self ready))) =
       (mkSession [] (Some (self ready)), Ok []).
Proof.
  split; [reflexivity|].
  exact (process_message_blank scripted "  " "" [] (mkSession [] (Some (self ready)))
           eq_refl).
Defined.

Lemma first_turn_returns :
  run_superstep scripted "Summarize https://example.com" "One sentence summary" [] ready =
    (fst first_turn,
     Ok [mkChatEntry "user" "Summarize https://example.com";
         mkChatEntry "assistant" "It is an example page.";
         mkChatEntry "assistant" "Evaluator Feedback on this answer: Good."]).
Proof. vm_compute. reflexivity. Qed.

Lemma run_superstep_history_witness :
  exists (result : State) (earlier : list Message) (reply feedback : Message),
    memory (self (fst first_turn)) !! sidekick_id (self (fst first_turn)) = Some result
    /\ messages result = earlier ++ [reply; feedback]
    /\ [mkChatEntry "user" "Summarize https://example.com";
        mkChatEntry "assistant" "It is an example page.";
        mkChatEntry "assistant" "Evaluator Feedback on this answer: Good."] =
       [] ++ [mkChatEntry "user" "Summarize https://example.com";
              mkChatEntry "assistant" (content reply);
              mkChatEntry "assistant" (content feedback)].
Proof.
  exact (run_superstep_history scripted "Summarize https://example.com"
           "One sentence summary" [] _ ready (fst first_turn) first_turn_returns).
Defined.

Lemma failed_turn_raises :
  run_superstep evaluator_down "hi" "" []
    (mkMachine ([] ++ [EvLoggerInfo ("Processing message: " +:+ prefix_slice 100 "hi" +:+ "...")])
               (self stuck)) =
    (fst failed_turn,
     Raise (mkException RuntimeError "Failed to run superstep: Connection error.")).
Proof. vm_compute. reflexivity. Qed.

Lemma process_message_failed_superstep_witness :
  truthy (strip "hi") = true
  /\ process_message evaluator_down "hi" "" [] (mkSession [] (Some (self stuck))) =
       (mkSession
          (world (fst failed_turn) ++
             [EvLoggerError ("Error processing message: " +:+
                str (mkException RuntimeError "Failed to run superstep: Connection error."))])
          (Some (self (fst failed_turn))),
        Ok ([] ++ [mkChatEntry "assistant"
                     ("Sorry, I encountered an error: " +:+
                        str (mkException RuntimeError
                               "Failed to run superstep: Connection error."))])).
Proof.
  split; [reflexivity|].
  exact (process_message_failed_superstep evaluator_down "hi" "" [] [] (self stuck)
           (fst failed_turn)
           (mkException RuntimeError "Failed to run superstep: Connection error.")
           eq_refl failed_turn_raises).
Defined.

Lemma ready_instance_state : instance_state scripted ready.
Proof. apply after_setup, created. Qed.

Lemma run_superstep_twice_transcript_witness :
  instance_state scripted ready
  /\ _is_initialized (self ready) = true
  /\ (length (transcript (self ready))
      < length (transcript (self (fst (run_superstep scripted "one" "" [] ready))))
      < length (transcript (self (fst (run_superstep scripted "two" "" []
          (mkMachine [] (self (fst (run_superstep scripted "one" "" [] ready)))))))))%nat.
Proof.
  split; [exact ready_instance_state|]. split; [reflexivity|].
  apply (run_superstep_twice_transcript scripted ready "one" "" [] "two" "" [] []
           ready_instance_state eq_refl).
Defined.

Lemma cleanup_idempotent_total_witness :
  instance_state scripted ready
  /\ browser (self (fst (cleanup scripted ready))) = None
  /\ playwright (self (fst (cleanup scripted ready))) = None.
Proof.
  split; [exact ready_instance_state|].
  split; apply (cleanup_idempotent_total scripted ready ready_instance_state).
Defined.

Lemma worker_system_message_witness :
  exists merged,
    apply_update one_question
      (worker_update ("", [mkToolCall "call_1" "navigate_browser"
                             [("url", "https://example.com")]])) = Ok merged
    /\ count_system (messages merged) = 0%nat.
Proof.
  destruct (worker_system_message scripted one_question []
              ("", [mkToolCall "call_1" "navigate_browser" [("url", "https://example.com")]])
              eq_refl) as (merged & _ & Hupd & _ & Hcount & _).
  exists merged. split; [exact Hupd|exact Hcount].
Defined.

(** C4, as the specification states it, fails. The worker runs on a state
    with one Human message and no System message; the state merged from
    its update holds the Human message and the Assistant answer: no System
    message was put in front of the state's messages, and the merged state
    does not hold exactly one. *)
Lemma worker_merged_state_without_system_message :
  exists w' mutated update merged,
    worker scripted one_question [] = (w', Ok (mutated, update))
    /\ apply_update mutated update = Ok merged
    /\ messages merged =
         [HumanMessage "hi";
          AIMessage "" [mkToolCall "call_1" "navigate_browser"
                          [("url", "https://example.com")]]]
    /\ count_system (messages one_question) = 0%nat
    /\ count_system (messages merged) <> 1%nat.
Proof.
  exists [EvWorkerLLM (SystemMessage (_create_system_message (now scripted 0) one_question)
                         :: messages one_question)],
    one_question,
    (worker_update ("", [mkToolCall "call_1" "navigate_browser"
                           [("url", "https://example.com")]])),
    (mkState [HumanMessage "hi";
              AIMessage "" [mkToolCall "call_1" "navigate_browser"
                              [("url", "https://example.com")]]]
       default_success_criteria None false false).
  split; [vm_compute; reflexivity|]. split; [reflexivity|].
  split; [reflexivity|]. split; [reflexivity|]. discriminate.
Qed.

(** Scenario A of the specification, run on the scripted world: one
    Worker / Tools / Worker / Evaluator cycle, three new entries. *)
Example scenario_A :
  snd first_turn
  = Ok [mkChatEntry "user" "Summarize https://example.com";
        mkChatEntry "assistant" "It is an example page.";
        mkChatEntry "assistant" "Evaluator Feedback on this answer: Good."]
  /\ transcript (self (fst first_turn))
     = [HumanMessage "Summarize https://example.com";
        AIMessage "" [mkToolCall "call_1" "navigate_browser" [("url", "https://example.com")]];
        ToolMessage "Example Domain" "call_1";
        AIMessage "It is an example page." [];
        AIMessage "Evaluator Feedback on this answer: Good." []].
Proof. split; vm_compute; reflexivity. Qed.

(* ===================================================================== *)
(** ** Further properties of the program                                  *)
(* ===================================================================== *)

(** *** The transcript shown to the evaluator *)

Lemma append_nil_r (s : string) : s +:+ "" = s.
Proof.
  induction s as [|c s IH]; [done|].
  change (String c (s +:+ "") = String c s). by rewrite IH.
Qed.

Lemma append_assoc (a b c : string) : (a +:+ b) +:+ c = a +:+ b +:+ c.
Proof.
  induction a as [|x a IH]; [done|].
  change (String x ((a +:+ b) +:+ c) = String x (a +:+ b +:+ c)). by rewrite IH.
Qed.

Lemma _format_conversation_from_app (c : string) (l k : list Message) :
  _format_conversation_from c (l ++ k) =
    _format_conversation_from (_format_conversation_from c l) k.
Proof. revert c. induction l as [|m l IH]; intros c; [done|]. cbn. apply IH. Qed.

Lemma _format_conversation_from_line (c : string) (m : Message) :
  _format_conversation_from c [m] = c +:+ conversation_line m.
Proof. destruct m; cbn; by rewrite ?append_nil_r. Qed.

(** X1. [_format_conversation] prints the Human and the Assistant messages
    only: the text for a list of messages is the text for the list with
    every System message and every tool result taken out. *)
Theorem _format_conversation_skips (messages : list Message) :
  _format_conversation messages = _format_conversation (List.filter printed messages).
Proof.
  unfold _format_conversation. generalize ("Conversation history:" +:+ NL +:+ NL).
  induction messages as [|m l IH]; intros c; [done|].
  destruct m; cbn; apply IH.
Qed.

(** X2. [_format_conversation] prints message after message: the text for a
    conversation followed by more messages is the text for the
    conversation followed by the lines of those messages, where a Human
    message gives the line "User: ...", an Assistant message the line
    "Assistant: ..." with "[Tools use]" for an empty content, and any
    other message gives nothing. *)
Theorem _format_conversation_app (messages more : list Message) :
  _format_conversation (messages ++ more) =
    _format_conversation messages +:+ String.concat "" (conversation_line <$> more).
Proof.
  unfold _format_conversation. generalize ("Conversation history:" +:+ NL +:+ NL).
  intros c. rewrite _format_conversation_from_app.
  generalize (_format_conversation_from c messages). clear c messages.
  induction more as [|m l IH]; intros c; [by rewrite append_nil_r|].
  change (m :: l) with ([m] ++ l).
  rewrite _format_conversation_from_app, _format_conversation_from_line, IH.
  rewrite append_assoc. f_equal.
  cbn [fmap list_fmap app String.concat].
  destruct l as [|m' l']; [by rewrite append_nil_r|]. reflexivity.
Qed.

(** *** The graph and its routers *)

(** X3. In the graph [build_graph] assembles, routing cannot fail on a
    state that holds a message: from the start and from every node, the
    router's answer is in its path map and the edge leads to a node of
    the graph or to the end. *)
Theorem workflow_routing_total (svc : Services) (node : string) (state : State) :
  node = START \/ is_Some (nodes (workflow svc) !! node) ->
  messages state <> [] ->
  exists target,
    next_node (workflow svc) node state = Ok target
    /\ known_target (workflow svc) target.
Proof.
  intros Hnode Hne.
  assert (Hw : known_target (workflow svc) "worker").
  { right. by rewrite workflow_node_worker. }
  assert (node = START \/ node = "worker" \/ node = "tools" \/ node = "evaluator")
    as [->|[->|[->| ->]]].
  { destruct Hnode as [->|[action Hn]]; [by left|right]. revert Hn.
    unfold workflow, add_node, add_edge, add_conditional_edges. cbn [nodes].
    rewrite !lookup_insert_Some, lookup_empty.
    intros [[<- _]|[_ [[<- _]|[_ [[<- _]|[_ ?]]]]]]; auto; done. }
  - exists "worker". by rewrite next_node_start.
  - rewrite next_node_worker. unfold worker_router.
    destruct (messages state) as [|m l] using rev_ind; [done|].
    rewrite getitem_last. cbn.
    destruct (tool_calls_attr m) as [[|c cs]|].
    + exists "evaluator". split; [done|]. right. by rewrite workflow_node_evaluator.
    + exists "tools". split; [done|]. right. by rewrite workflow_node_tools.
    + exists "evaluator". split; [done|]. right. by rewrite workflow_node_evaluator.
  - exists "worker". by rewrite next_node_tools.
  - rewrite next_node_evaluator.
    destruct (_ || _); eexists; (split; [reflexivity|]); [by left|done].
Qed.

(** X4. On a state without any message the worker router raises an
    [IndexError], and the evaluator raises it before it calls the
    structured-output service: the world is as it was. *)
Theorem no_message_IndexError (svc : Services) (state : State) (w : World) :
  messages state = [] ->
  worker_router state = Raise (mkException IndexError "list index out of range")
  /\ evaluator svc state w =
       (w, Raise (mkException IndexError "list index out of range")).
Proof.
  intros H. unfold worker_router, evaluator, mbind, M_bind, lift_result.
  rewrite H, getitem_nil. done.
Qed.

(** *** Configuration *)

(** X5. Once the configuration is loaded from an environment, [validate]
    succeeds exactly when the environment gives [OPENAI_API_KEY] a value
    that is not empty; when the variable is missing or empty it raises a
    [ValueError]. *)
Theorem Config_validate_loaded (int : string -> result Z) (environ : gmap string string)
    (config : Config.t) :
  Config.load int environ = Ok config ->
  (Config.validate config = Ok true
     <-> exists key, environ !! "OPENAI_API_KEY" = Some key /\ key <> "")
  /\ (Config.validate config = Ok true
      \/ Config.validate config =
           Raise (mkException ValueError "OPENAI_API_KEY is required")).
Proof.
  unfold Config.load, mbind, result_bind. destruct (int _) as [port|e]; [|done].
  intros [= <-]. unfold Config.validate, Config.getenv. cbn [Config.OPENAI_API_KEY].
  destruct (environ !! "OPENAI_API_KEY") as [[|c k]|]; cbn; split; try (by right); try (by left).
  - split; [done|]. by intros (key & [= <-] & ?).
  - split; [|done]. intros _. by eexists.
  - split; [done|]. by intros (key & ? & ?).
Qed.

(** X28. A loaded configuration is never in production mode and in
    development mode at once, and when the environment does not set
    [APP_ENV] it is in development mode. *)
Theorem Config_environment_modes (int : string -> result Z) (environ : gmap string string)
    (config : Config.t) :
  Config.load int environ = Ok config ->
  Config.is_production config && Config.is_development config = false
  /\ (environ !! "APP_ENV" = None ->
      Config.is_development config = true /\ Config.is_production config = false).
Proof.
  unfold Config.load, mbind, result_bind. destruct (int _) as [port|e]; [|done].
  intros [= <-]. unfold Config.is_production, Config.is_development, Config.getenv.
  cbn [Config.APP_ENV]. split.
  - destruct (String.eqb_spec (lower (default "development" (environ !! "APP_ENV")))
                "production") as [->|]; done.
  - by intros ->.
Qed.

(** X6. [validate_environment] never raises. It answers [True] and prints
    nothing when the API key is set, and answers [False] after five
    printed lines when it is not. *)
Theorem validate_environment_answer (config : Config.t) (w : World) :
  exists printed_lines,
    validate_environment config w =
      (w ++ (EvPrint <$> printed_lines), Ok (truthy (Config.OPENAI_API_KEY config)))
    /\ length printed_lines =
         (if truthy (Config.OPENAI_API_KEY config) then 0 else 5)%nat.
Proof.
  unfold validate_environment, try_except, mbind, M_bind, lift_result, Config.validate, emit.
  destruct (truthy (Config.OPENAI_API_KEY config)); cbn.
  - exists []. by rewrite app_nil_r.
  - eexists [_; _; _; _; _]. split; [|done]. by rewrite <- !app_assoc.
Qed.

(** *** External tools *)

(** X7. [push] sends nothing and answers "Push notifications not
    configured" unless both the Pushover token and the Pushover user are
    set and not empty. When both are set it sends exactly one request,
    with the token, the user and the text; a refused or failed request
    comes back as a text that starts with "Failed to send push
    notification: " and is not raised. *)
Theorem push_outcome (config : Config.t)
    (requests_post : nat -> PostRequest -> PostOutcome) (text : string)
    (sent : list PostRequest) :
  let configured :=
    truthy_opt (Config.PUSHOVER_TOKEN config) && truthy_opt (Config.PUSHOVER_USER config) in
  let request :=
    mkPostRequest "https://api.pushover.net/1/messages.json"
      [("token", default "" (Config.PUSHOVER_TOKEN config));
       ("user", default "" (Config.PUSHOVER_USER config));
       ("message", text)] 10 in
  (configured = false ->
     External.push config requests_post text sent =
       (sent, Ok "Push notifications not configured"))
  /\ (configured = true ->
      fst (External.push config requests_post text sent) = sent ++ [request]
      /\ (requests_post (length sent) request = Responded None ->
          snd (External.push config requests_post text sent) =
            Ok "Push notification sent successfully")
      /\ (forall e, requests_post (length sent) request = Responded (Some e)
                    \/ requests_post (length sent) request = RequestException e ->
          snd (External.push config requests_post text sent) =
            Ok ("Failed to send push notification: " +:+ e))
      /\ (forall e, snd (External.push config requests_post text sent) = Raise e ->
          requests_post (length sent) request = OtherException e)).
Proof.
  cbv zeta. unfold External.push.
  destruct (truthy_opt (Config.PUSHOVER_TOKEN config)),
           (truthy_opt (Config.PUSHOVER_USER config)); cbn [negb orb andb];
    (split; [try done|intros H; try done]).
  cbn [fst snd]. split; [done|]. split; [by intros ->|]. split.
  - by intros e [-> | ->].
  - intros e. destruct (requests_post _ _) as [[?|]| |]; try done. by intros [= ->].
Qed.

(** X8. [other_tools] can only fail where the search tool is configured
    and its wrapper cannot be built. A failure of the file tools, of the
    Wikipedia tool or of the Python tool is a printed warning, and the
    list comes back without that tool; the push tool is always the first
    of the list, and "search" is added exactly when a Serper key is set. *)
Theorem other_tools_degrades (config : Config.t) (backends : ToolBackends) (w : World) :
  let search := truthy_opt (Config.SERPER_API_KEY config) in
  (forall e, snd (External.other_tools config backends w) = Raise e ->
     search = true /\ serper_wrapper backends = Raise e)
  /\ (forall tools, snd (External.other_tools config backends w) = Ok tools ->
      exists file_tools wiki repl,
        tools = ["send_push_notification"] ++ file_tools
                  ++ (if search then ["search"] else []) ++ wiki ++ repl
        /\ file_tools = match file_management_tools backends with Ok l => l | Raise _ => [] end
        /\ wiki = match wikipedia_tool backends with Ok t => [t] | Raise _ => [] end
        /\ repl = match python_repl_tool backends with Ok t => [t] | Raise _ => [] end).
Proof.
  cbv zeta.
  unfold External.other_tools, External.get_file_tools, try_except, mbind, M_bind,
    lift_result, emit, mret, M_ret.
  destruct (file_management_tools backends) as [files|e1];
    destruct (truthy_opt (Config.SERPER_API_KEY config));
    destruct (serper_wrapper backends) as [[]|e2];
    destruct (wikipedia_tool backends) as [wiki|e3];
    destruct (python_repl_tool backends) as [repl|e4]; cbn;
    (split;
       [intros e He; first [done | by injection He as ->]
       |intros tools Ht;
        first [done
              |injection Ht as <-; eexists _, _, _;
               split; [|split; [reflexivity|split; reflexivity]];
               cbn; rewrite <- ?app_assoc, ?app_nil_r; reflexivity]]).
Qed.

(** *** The life of a [Sidekick] *)

Ltac case_service :=
  match goal with
  | |- context [truthy ?x] => destruct (truthy x) eqn:?
  | |- context [launch_browser ?s ?n] =>
      destruct (launch_browser s n) as [[[? ?] ?]|?] eqn:?
  | |- context [external_tools ?s ?n] => destruct (external_tools s n) eqn:?
  | |- context [new_ChatOpenAI ?s ?n ?m] => destruct (new_ChatOpenAI s n m) eqn:?
  | |- context [browser_close ?s ?n ?b] => destruct (browser_close s n b) as [[]|?] eqn:?
  | |- context [playwright_stop ?s ?n ?p] => destruct (playwright_stop s n p) as [[]|?] eqn:?
  end.
Ltac case_services := repeat (case_service; cbn [negb fst snd world self]).

Ltac unfold_setup :=
  unfold setup, try_except, mbind, M_bind, in_world, zoom, config_validate,
    playwright_tools, other_tools, call, try_except, set_self, modify, build_graph,
    raise, mret, M_ret;
  cbn [world self negb fst snd].

Section Contracts.
Variable svc : Services.

(** X9. Whatever [run_superstep] raises is a [RuntimeError]. On an
    instance that is not initialized the text is "Sidekick not
    initialized. Call setup() first." and neither the instance nor the
    world has changed; on an initialized one the text starts with "Failed
    to run superstep: ". *)
Theorem run_superstep_raises_RuntimeError (message success_criteria : string)
    (history : list ChatEntry) (mc mc' : Machine) (e : Exception) :
  run_superstep svc message success_criteria history mc = (mc', Raise e) ->
  exc_type e = RuntimeError
  /\ (if _is_initialized (self mc)
      then exists text, str e = "Failed to run superstep: " +:+ text
      else str e = "Sidekick not initialized. Call setup() first." /\ mc' = mc).
Proof.
  unfold run_superstep, get_self, mbind, M_bind, try_except, lift_result, raise.
  destruct (_is_initialized (self mc)); cbn [negb].
  2:{ by intros [= <- <-]. }
  destruct (graph (self mc)) as [g|].
  2:{ intros [= <- <-]. split; [done|]. by eexists. }
  destruct (ainvoke svc g _ _ mc) as [mc1 [result|e1]].
  2:{ intros [= <- <-]. split; [done|]. by eexists. }
  destruct (getitem (messages result) (-2)) as [?|e2].
  2:{ intros [= <- <-]. split; [done|]. by eexists. }
  destruct (getitem (messages result) (-1)) as [?|e3]; [done|].
  intros [= <- <-]. split; [done|]. by eexists.
Qed.

Lemma setup_Raise_inv (mc mc' : Machine) (e : Exception) :
  setup svc mc = (mc', Raise e) ->
  exc_type e = RuntimeError
  /\ (exists text, str e = "Failed to setup Sidekick: " +:+ text)
  /\ _is_initialized (self mc') = _is_initialized (self mc)
  /\ memory (self mc') = memory (self mc).
Proof.
  unfold_setup. case_services; intros [= <- <-]; cbn; eauto.
Qed.

Lemma setup_Ok_inv (mc mc' : Machine) :
  setup svc mc = (mc', Ok tt) ->
  exists browser_tools b p more,
    launch_browser svc (length (world mc)) = Ok (browser_tools, b, p)
    /\ self mc' =
         {| worker_llm_with_tools :=
              Some (bind_tools "gpt-4o-mini" (browser_tools ++ more));
            evaluator_llm_with_output := Some (with_structured_output "gpt-4o-mini");
            tools := Some (browser_tools ++ more);
            graph := Some (workflow svc);
            sidekick_id := sidekick_id (self mc);
            memory := memory (self mc);
            browser := Some b;
            playwright := Some p;
            _is_initialized := true |}
    /\ world mc' = world mc ++ [EvPlaywrightTools; EvOtherTools;
                                EvChatOpenAI "gpt-4o-mini"; EvChatOpenAI "gpt-4o-mini"].
Proof.
  unfold_setup. case_services; intros [= <-]; cbn.
  eexists _, _, _, _. split; [reflexivity|]. split; [reflexivity|].
  by rewrite <- !app_assoc.
Qed.

Lemma setup_world_grows (mc : Machine) :
  exists more, world (fst (setup svc mc)) = world mc ++ more.
Proof.
  unfold_setup. case_services; cbn; rewrite <- ?app_assoc;
    try (by eexists); by exists []; rewrite app_nil_r.
Qed.

(** X10. Whatever [setup] raises is a [RuntimeError] whose text starts
    with "Failed to setup Sidekick: "; a failed [setup] does not mark the
    instance as initialized and leaves its checkpoints as they were. *)
Theorem setup_raises_RuntimeError (mc mc' : Machine) (e : Exception) :
  setup svc mc = (mc', Raise e) ->
  exc_type e = RuntimeError
  /\ (exists text, str e = "Failed to setup Sidekick: " +:+ text)
  /\ _is_initialized (self mc') = _is_initialized (self mc)
  /\ memory (self mc') = memory (self mc).
Proof. apply setup_Raise_inv. Qed.


(** X12. Without an API key [setup] fails before it reaches any service:
    the instance and the world are as they were, and the error is
    "Failed to setup Sidekick: OPENAI_API_KEY is required". *)
Theorem setup_without_key (mc : Machine) :
  OPENAI_API_KEY svc = "" ->
  setup svc mc =
    (mc, Raise (mkException RuntimeError
                  "Failed to setup Sidekick: OPENAI_API_KEY is required")).
Proof.
  intros H. unfold_setup. rewrite H. cbn. by destruct mc.
Qed.


(** X14. After [cleanup] the instance refuses every superstep: whatever it
    was before, [run_superstep] raises "Sidekick not initialized. Call
    setup() first." and changes nothing. *)
Theorem run_superstep_after_cleanup (mc : Machine) (w : World)
    (message success_criteria : string) (history : list ChatEntry) :
  let cleaned := mkMachine w (self (fst (cleanup svc mc))) in
  run_superstep svc message success_criteria history cleaned =
    (cleaned, Raise (mkException RuntimeError
                       "Sidekick not initialized. Call setup() first.")).
Proof.
  cbv zeta. rewrite cleanup_eq. cbn [fst self].
  unfold run_superstep, get_self, mbind, M_bind, raise. cbn.
  by destruct (present _ && present _).
Qed.

(** X15. Neither [setup] nor [cleanup] touches the conversation: the
    identifier of the thread and its persisted transcript are the same
    after the call, whether it returned or raised. *)
Theorem setup_cleanup_keep_transcript (mc : Machine) :
  sidekick_id (self (fst (setup svc mc))) = sidekick_id (self mc)
  /\ transcript (self (fst (setup svc mc))) = transcript (self mc)
  /\ sidekick_id (self (fst (cleanup svc mc))) = sidekick_id (self mc)
  /\ transcript (self (fst (cleanup svc mc))) = transcript (self mc).
Proof.
  destruct (setup_effect svc mc) as (Hmem & Hid & _).
  split; [exact Hid|]. split; [unfold transcript; by rewrite Hmem, Hid|].
  rewrite cleanup_eq. cbn [fst self]. unfold transcript.
  by destruct (present _ && present _).
Qed.

(** X16. [cleanup_browser] never raises. It asks the browser to close
    first; it asks playwright to stop exactly when the browser closed
    without error; and it prints one warning exactly when one of the two
    failed. *)
Theorem cleanup_browser_order (b : Browser) (p : Playwright) (w : World) :
  exists rest,
    cleanup_browser svc (Some b) (Some p) w = (w ++ EvBrowserClose b :: rest, Ok tt)
    /\ match browser_close svc (length w) b with
       | Raise e =>
           rest = [EvPrint ("Warning: Error during browser cleanup: " +:+ str e)]
       | Ok _ =>
           match playwright_stop svc (S (length w)) p with
           | Ok _ => rest = [EvPlaywrightStop p]
           | Raise e =>
               rest = [EvPlaywrightStop p;
                       EvPrint ("Warning: Error during browser cleanup: " +:+ str e)]
           end
       end.
Proof.
  unfold cleanup_browser, try_except, mbind, M_bind, call, emit, mret, M_ret.
  destruct (browser_close svc (length w) b) as [[]|e1].
  - rewrite length_app. cbn [length]. rewrite Nat.add_1_r.
    destruct (playwright_stop svc (S (length w)) p) as [[]|e2];
      eexists; (split; [|reflexivity]); by rewrite <- ?app_assoc.
  - eexists; (split; [|reflexivity]); by rewrite <- ?app_assoc.
Qed.

End Contracts.

(** *** The chat window, again *)

Lemma lstrip_not_blank (s : string) :
  only_whitespace s = false ->
  exists c s', lstrip s = String c s' /\ isspace c = false.
Proof.
  induction s as [|c s IH]; [done|]. cbn.
  destruct (isspace c) eqn:Hc; cbn; [exact IH|]. intros _. by exists c, s.
Qed.

Lemma strip_not_blank (s : string) :
  only_whitespace s = false -> truthy (strip s) = true.
Proof.
  intros H. destruct (lstrip_not_blank s H) as (c & s' & Hl & Hc).
  unfold strip. rewrite Hl. cbn. destruct (rstrip s'); [by rewrite Hc|done].
Qed.

Lemma run_superstep_Ok_three (svc : Services) (message success_criteria : string)
    (history history' : list ChatEntry) (mc mc' : Machine) :
  run_superstep svc message success_criteria history mc = (mc', Ok history') ->
  exists a b c, history' = history ++ [a; b; c].
Proof.
  unfold run_superstep, get_self, mbind, M_bind, try_except, lift_result, raise.
  destruct (negb (_is_initialized (self mc))); [done|].
  destruct (graph (self mc)) as [g|]; [|done].
  destruct (ainvoke svc g _ _ mc) as [mc1 [result|e]]; [|done].
  destruct (getitem (messages result) (-2)); [|done].
  destruct (getitem (messages result) (-1)); [|done].
  intros [= <- <-]. by eexists _, _, _.
Qed.

(** X17. [process_message] never raises, and what it returns is the input
    history with new entries at its end: none for a blank message, and
    for any other message either the three entries of a superstep or the
    single entry of an error. *)
Theorem process_message_growth (svc : Services) (message success_criteria : string)
    (history : list ChatEntry) (s : Session) :
  exists s' added,
    process_message svc message success_criteria history s = (s', Ok (history ++ added))
    /\ (if only_whitespace message
        then added = [] /\ s' = s
        else length added = 1%nat \/ length added = 3%nat).
Proof.
  destruct (only_whitespace message) eqn:Hblank.
  { exists s, []. rewrite app_nil_r. split; [|done]. by apply process_message_blank. }
  unfold process_message, try_except.
  rewrite (strip_not_blank _ Hblank).
  unfold mbind, M_bind, logger, zoom, emit, on_sidekick; cbn [negb sidekick session_world].
  destruct (sidekick s) as [sk|]; [|eexists _, [_]; split; [reflexivity|by left]].
  match goal with
  | |- context [run_superstep ?a ?b ?c ?d ?m] =>
      destruct (run_superstep a b c d m) as [mc [h|e]] eqn:Hrun
  end.
  - apply run_superstep_Ok_three in Hrun as (x & y & z & ->).
    eexists _, [x; y; z]. split; [reflexivity|by right].
  - eexists _, [_]. split; [reflexivity|by left].
Qed.

(** X18. Without a session object, which is what the window holds when
    its set up failed, a message that is not blank gets one error entry
    that reports the missing object; two lines are logged and nothing
    else happens. *)
Theorem process_message_without_session (svc : Services)
    (message success_criteria : string) (history : list ChatEntry) (w : World) :
  only_whitespace message = false ->
  let text := "'NoneType' object has no attribute 'run_superstep'" in
  process_message svc message success_criteria history (mkSession w None) =
    (mkSession
       (w ++ [EvLoggerInfo ("Processing message: " +:+ prefix_slice 100 message +:+ "...");
              EvLoggerError ("Error processing message: " +:+ text)])
       None,
     Ok (history ++ [mkChatEntry "assistant" ("Sorry, I encountered an error: " +:+ text)])).
Proof.
  intros Hblank. cbv zeta. unfold process_message, try_except.
  rewrite (strip_not_blank _ Hblank).
  unfold mbind, M_bind, logger, zoom, emit, on_sidekick; cbn [negb sidekick session_world].
  by rewrite <- app_assoc.
Qed.

Section WindowProperties.
Variable svc : Services.
Variable uuid4 : nat -> string.

Lemma SidekickUI_setup_eq (u : Window) :
  SidekickUI_setup svc uuid4 u =
    if ui__is_initialized (window_self u) then (u, Ok (ui_sidekick (window_self u)))
    else
      let w1 := window_world u ++ [EvLoggerInfo "Initializing Sidekick..."] in
      let sk := Sidekick__init__ (uuid4 (window_uuids u)) in
      match setup svc (mkMachine w1 sk) with
      | (mc, Ok _) =>
          (mkWindow (world mc ++ [EvLoggerInfo "Sidekick initialized successfully"])
             (mkSidekickUI (Some (self mc)) true) (S (window_uuids u)),
           Ok (Some (self mc)))
      | (mc, Raise e) =>
          (mkWindow (world mc ++ [EvLoggerError ("Failed to initialize Sidekick: " +:+ str e)])
             (mkSidekickUI (Some (self mc)) false) (S (window_uuids u)),
           Raise e)
      end.
Proof.
  unfold SidekickUI_setup, try_except, mbind, M_bind, get_window_self, window_logger,
    new_Sidekick, set_window_self, on_own_sidekick, raise, mret, M_ret.
  destruct (ui__is_initialized (window_self u)) eqn:Hinit; cbn [negb].
  { by destruct u. }
  cbn [window_world window_self window_uuids ui_sidekick ui__is_initialized].
  destruct (setup svc _) as [mc [[]|e]]; reflexivity.
Qed.

(** X19. [SidekickUI.setup] sets up at most once: after a call that
    returned, the window is initialized, and every further call hands
    back the same session object without touching the world. *)
Theorem SidekickUI_setup_once (u u1 : Window) (r : option Sidekick) :
  SidekickUI_setup svc uuid4 u = (u1, Ok r) ->
  ui__is_initialized (window_self u1) = true
  /\ r = ui_sidekick (window_self u1)
  /\ SidekickUI_setup svc uuid4 u1 = (u1, Ok r).
Proof.
  rewrite SidekickUI_setup_eq.
  destruct (ui__is_initialized (window_self u)) eqn:Hinit.
  - intros [= <- <-]. rewrite SidekickUI_setup_eq, Hinit. done.
  - cbv zeta. destruct (setup svc _) as [mc [[]|e]]; [|done].
    intros [= <- <-]. rewrite SidekickUI_setup_eq. done.
Qed.

(** X20. The first [SidekickUI.setup] that returns hands back a new
    session object: initialized, with a new identifier, without any
    checkpoint, and held by the window. *)
Theorem SidekickUI_setup_first (u u1 : Window) (r : option Sidekick) :
  ui__is_initialized (window_self u) = false ->
  SidekickUI_setup svc uuid4 u = (u1, Ok r) ->
  exists sk,
    r = Some sk
    /\ ui_sidekick (window_self u1) = Some sk
    /\ _is_initialized sk = true
    /\ sidekick_id sk = uuid4 (window_uuids u)
    /\ memory sk = ∅
    /\ transcript sk = [].
Proof.
  intros Hinit. rewrite SidekickUI_setup_eq, Hinit. cbv zeta.
  destruct (setup svc _) as [mc [[]|e]] eqn:Hsetup; [|done].
  intros [= <- <-]. exists (self mc).
  apply setup_Ok_inv in Hsetup as (ts & b & p & more & _ & -> & _).
  repeat split; done.
Qed.

(** X21. When [SidekickUI.setup] raises, it raises what [Sidekick.setup]
    raised, a [RuntimeError] whose text starts with "Failed to setup
    Sidekick: "; the error is the last line logged, the window is not
    initialized, and the session object it holds is not either. *)
Theorem SidekickUI_setup_raises (u u1 : Window) (e : Exception) :
  SidekickUI_setup svc uuid4 u = (u1, Raise e) ->
  exc_type e = RuntimeError
  /\ (exists text, str e = "Failed to setup Sidekick: " +:+ text)
  /\ ui__is_initialized (window_self u1) = false
  /\ (exists sk, ui_sidekick (window_self u1) = Some sk /\ _is_initialized sk = false)
  /\ last (window_world u1) =
       Some (EvLoggerError ("Failed to initialize Sidekick: " +:+ str e)).
Proof.
  rewrite SidekickUI_setup_eq.
  destruct (ui__is_initialized (window_self u)); [done|]. cbv zeta.
  destruct (setup svc _) as [mc [[]|e']] eqn:Hsetup; [done|].
  intros [= <- <-].
  apply setup_Raise_inv in Hsetup as (Ht & Htext & Hinit & _).
  split; [exact Ht|]. split; [exact Htext|]. split; [done|].
  split; [by exists (self mc)|]. cbn. by rewrite last_snoc.
Qed.

Lemma SidekickUI_reset_eq (u : Window) :
  let w0 := window_world u ++ [EvLoggerInfo "Resetting conversation..."] in
  let cleaned :=
    match ui_sidekick (window_self u) with
    | Some old =>
        if ui__is_initialized (window_self u)
        then let mc := fst (cleanup svc (mkMachine w0 old)) in (world mc, Some (self mc))
        else (w0, Some old)
    | None => (w0, None)
    end in
  let new_sidekick := Sidekick__init__ (uuid4 (window_uuids u)) in
  SidekickUI_reset svc uuid4 u =
    match setup svc (mkMachine (fst cleaned) new_sidekick) with
    | (mc, Ok _) =>
        (mkWindow (world mc ++ [EvLoggerInfo "Conversation reset successfully"])
           (mkSidekickUI (Some (self mc)) true) (S (window_uuids u)),
         Ok ("", "", [], self mc))
    | (mc, Raise e) =>
        let w2 := world mc ++ [EvLoggerError ("Error resetting conversation: " +:+ str e)] in
        let ui := mkSidekickUI (snd cleaned) (ui__is_initialized (window_self u)) in
        match snd cleaned with
        | Some old => (mkWindow w2 ui (S (window_uuids u)), Ok ("", "", [], old))
        | None =>
            (mkWindow w2 ui (S (S (window_uuids u))),
             Ok ("", "", [], Sidekick__init__ (uuid4 (S (window_uuids u)))))
        end
    end.
Proof.
  cbv zeta.
  unfold SidekickUI_reset, try_except, mbind, M_bind, get_window_self, window_logger,
    new_Sidekick, set_window_self, on_own_sidekick, on_local, raise, mret, M_ret.
  destruct u as [w [[old|] [|]] n]; cbn -[setup cleanup].
  - rewrite (cleanup_eq svc (mkMachine _ old)). cbn -[setup cleanup].
    destruct (setup svc _) as [mc [[]|e]]; reflexivity.
  - destruct (setup svc _) as [mc [[]|e]]; reflexivity.
  - destruct (setup svc _) as [mc [[]|e]]; reflexivity.
  - destruct (setup svc _) as [mc [[]|e]]; reflexivity.
Qed.

(** X22. [SidekickUI.reset] never raises, and it always hands back an
    empty message, empty success criteria and an empty history, together
    with a session object. *)
Theorem SidekickUI_reset_total (u : Window) :
  exists u1 sk, SidekickUI_reset svc uuid4 u = (u1, Ok ("", "", [], sk)).
Proof.
  rewrite SidekickUI_reset_eq. cbv zeta.
  destruct (setup svc _) as [mc [[]|e]]; [by eexists _, _|].
  destruct (snd _); by eexists _, _.
Qed.

(** X23. When [SidekickUI.reset] ends on its line of success, the session
    object it hands back is a new one: initialized, with a new
    identifier, without any checkpoint, and it is the one the window now
    holds as initialized. *)
Theorem SidekickUI_reset_new_session (u u1 : Window) (out : string * string * list ChatEntry)
    (sk : Sidekick) :
  SidekickUI_reset svc uuid4 u = (u1, Ok (out, sk)) ->
  last (window_world u1) = Some (EvLoggerInfo "Conversation reset successfully") ->
  window_self u1 = mkSidekickUI (Some sk) true
  /\ _is_initialized sk = true
  /\ sidekick_id sk = uuid4 (window_uuids u)
  /\ memory sk = ∅
  /\ transcript sk = [].
Proof.
  rewrite SidekickUI_reset_eq. cbv zeta.
  destruct (setup svc _) as [mc [[]|e]] eqn:Hsetup.
  - intros [= <- <- <-] _.
    apply setup_Ok_inv in Hsetup as (ts & b & p & more & _ & -> & _).
    repeat split; done.
  - destruct (snd _); intros [= <- <- <-]; cbn; by rewrite last_snoc.
Qed.

(** X24. [SidekickUI.reset] on an initialized window cleans the old
    session up before anything else: the first thing it does after its
    opening log line is to ask the old browser to close. *)
Theorem SidekickUI_reset_closes_old (u : Window) (old : Sidekick) (b : Browser)
    (p : Playwright) :
  window_self u = mkSidekickUI (Some old) true ->
  browser old = Some b ->
  playwright old = Some p ->
  exists rest,
    window_world (fst (SidekickUI_reset svc uuid4 u)) =
      window_world u ++ EvLoggerInfo "Resetting conversation..."
        :: EvBrowserClose b :: rest.
Proof.
  intros Hself Hb Hp. rewrite SidekickUI_reset_eq, Hself. cbv zeta.
  cbn [ui_sidekick ui__is_initialized fst snd].
  rewrite cleanup_eq. cbn [fst snd world self]. rewrite Hb, Hp. cbn [present andb].
  destruct (cleanup_browser_order svc b p
              (window_world u ++ [EvLoggerInfo "Resetting conversation..."]))
    as (rest & -> & _).
  cbn [fst].
  set (w1 := _ ++ EvBrowserClose b :: rest).
  destruct (setup_world_grows svc
              (mkMachine w1 (Sidekick__init__ (uuid4 (window_uuids u)))))
    as [more Hmore].
  destruct (setup svc _) as [mc [[]|e]]; cbn in Hmore |- *; rewrite Hmore; unfold w1;
    rewrite <- !app_assoc; cbn; by eexists.
Qed.

(** X25. A [SidekickUI.reset] that fails on an initialized window hands
    the old session object back, already cleaned up: it is not
    initialized any more and holds no browser, while the window still
    counts itself as initialized. *)
Theorem SidekickUI_reset_failed (u u1 : Window) (old sk : Sidekick)
    (out : string * string * list ChatEntry) :
  window_self u = mkSidekickUI (Some old) true ->
  handles_paired old ->
  SidekickUI_reset svc uuid4 u = (u1, Ok (out, sk)) ->
  last (window_world u1) <> Some (EvLoggerInfo "Conversation reset successfully") ->
  window_self u1 = mkSidekickUI (Some sk) true
  /\ _is_initialized sk = false
  /\ browser sk = None
  /\ playwright sk = None
  /\ sidekick_id sk = sidekick_id old
  /\ memory sk = memory old.
Proof.
  intros Hself Hpair. rewrite SidekickUI_reset_eq, Hself. cbv zeta.
  cbn [ui_sidekick ui__is_initialized fst snd].
  destruct (setup svc _) as [mc [[]|e]] eqn:Hsetup.
  - intros [= <- <- <-]. cbn. by rewrite last_snoc.
  - cbn [fst snd]. intros [= <- <- <-] _.
    rewrite cleanup_eq. cbn [fst self]. unfold handles_paired in Hpair.
    destruct old as [? ? ? ? ? ? [b|] [p|] ?]; cbn in *; done.
Qed.

End WindowProperties.

(** *** Whole supersteps *)

Section Supersteps.
Variable svc : Services.

Lemma run_nodes_END (fuel : nat) (g : StateGraph) (tid : string) (st : State)
    (mc : Machine) :
  run_nodes fuel g tid END st mc = (mc, Ok st).
Proof. by destruct fuel. Qed.

Lemma run_nodes_step (fuel : nat) (g : StateGraph) (tid node next : string)
    (st st1 st2 : State) (upd : Update) (action : Node) (mc : Machine) (w' : World) :
  String.eqb node END = false ->
  nodes g !! node = Some action ->
  action st (world mc) = (w', Ok (st1, upd)) ->
  apply_update st1 upd = Ok st2 ->
  next_node g node st2 = Ok next ->
  run_nodes (S fuel) g tid node st mc =
    run_nodes fuel g tid next st2
      (mkMachine w' (set_memory (<[tid := st2]> (memory (self mc))) (self mc))).
Proof.
  intros Hne Hn Ha Hu Hnext. cbn [run_nodes]. rewrite Hne, Hn.
  unfold mbind, M_bind, in_world, zoom, lift_result, put_checkpoint, set_self, modify.
  rewrite Ha, Hu, Hnext. reflexivity.
Qed.

Lemma run_nodes_raise (fuel : nat) (g : StateGraph) (tid node : string)
    (st : State) (action : Node) (mc : Machine) (w' : World) (e : Exception) :
  String.eqb node END = false ->
  nodes g !! node = Some action ->
  action st (world mc) = (w', Raise e) ->
  run_nodes (S fuel) g tid node st mc = (mkMachine w' (self mc), Raise e).
Proof.
  intros Hne Hn Ha. cbn [run_nodes]. rewrite Hne, Hn.
  unfold mbind, M_bind, in_world, zoom. by rewrite Ha.
Qed.

Lemma worker_on_no_system (st : State) (w : World) :
  no_system st ->
  let sent := SystemMessage (_create_system_message (now svc (length w)) st)
                :: messages st in
  worker svc st w =
    (w ++ [EvWorkerLLM sent],
     match worker_llm_invoke svc (length w) sent with
     | Ok response => Ok (st, worker_update response)
     | Raise e => Raise e
     end).
Proof.
  intros Hno. cbv zeta. rewrite worker_eq. cbv zeta. unfold worker_messages.
  rewrite update_system_message_none by exact Hno. cbn [fst snd app].
  by destruct st.
Qed.

(** X26. One cycle. On an initialized instance with room for two node
    runs, when the worker's LLM answers without any tool call and the
    evaluator then reports that the criteria are met or that the user is
    needed, [run_superstep] returns the history followed by the user's
    message, the worker's answer and the evaluator's feedback, and the
    transcript of the thread has grown by exactly these three messages. *)
Theorem run_superstep_one_cycle (mc : Machine) (message criteria : string)
    (history : list ChatEntry) (answer : string) (verdict : EvaluatorOutput) :
  instance_state svc mc ->
  _is_initialized (self mc) = true ->
  (2 <= recursion_limit svc)%nat ->
  (forall n input, worker_llm_invoke svc n input = Ok (answer, [])) ->
  (forall n input, evaluator_llm_invoke svc n input = Ok verdict) ->
  eo_success_criteria_met verdict || eo_user_input_needed verdict = true ->
  let feedback_text := "Evaluator Feedback on this answer: " +:+ feedback verdict in
  exists mc',
    run_superstep svc message criteria history mc =
      (mc', Ok (history ++ [mkChatEntry "user" message;
                            mkChatEntry "assistant" answer;
                            mkChatEntry "assistant" feedback_text]))
    /\ transcript (self mc') =
         transcript (self mc) ++ [HumanMessage message; AIMessage answer [];
                                  AIMessage feedback_text []].
Proof.
  intros Hst Hinit Hlimit Hworker Heval Hverdict. cbv zeta.
  destruct (instance_state_sound _ _ Hst) as (_ & Hno & Hgraph).
  unfold run_superstep, get_self, mbind, M_bind, try_except, lift_result, raise.
  rewrite Hinit, (Hgraph Hinit). cbn [negb].
  unfold ainvoke, get_self, mbind, M_bind, lift_result.
  rewrite apply_update_input, next_node_start.
  unfold put_checkpoint, set_self, modify. cbn [self world].
  destruct (recursion_limit svc) as [|[|fuel]]; [lia|lia|].
  set (tid := sidekick_id (self mc)).
  set (st0 := seeded _ _).
  assert (Hmsgs0 : messages st0 = transcript (self mc) ++ [HumanMessage message]).
  { unfold st0, seeded, tid. cbn [messages create_initial_state].
    by rewrite <- transcript_loaded. }
  assert (Hno0 : no_system st0).
  { unfold no_system. rewrite Hmsgs0, count_system_app, Hno. done. }
  (* the worker *)
  set (st1 := mkState (messages st0 ++ [AIMessage answer []]) (success_criteria st0)
                (feedback_on_work st0) (success_criteria_met st0) (user_input_needed st0)).
  erewrite (run_nodes_step _ _ _ "worker" "evaluator" st0 st0 st1
              (worker_update (answer, [])));
    [|reflexivity|apply workflow_node_worker
     |rewrite (worker_on_no_system st0 _ Hno0); cbv zeta; rewrite Hworker; reflexivity
     |reflexivity
     |rewrite next_node_worker; unfold worker_router; cbn [messages st1];
      rewrite getitem_last; reflexivity].
  (* the evaluator *)
  set (st2 := mkState (messages st1 ++ [AIMessage ("Evaluator Feedback on this answer: "
                                                    +:+ feedback verdict) []])
                (success_criteria st1) (Some (feedback verdict))
                (eo_success_criteria_met verdict) (eo_user_input_needed verdict)).
  erewrite (run_nodes_step _ _ _ "evaluator" END st1 st1 st2 (evaluator_update verdict));
    [|reflexivity|apply workflow_node_evaluator
     | |reflexivity
     |rewrite next_node_evaluator; cbn [success_criteria_met user_input_needed st2];
      by rewrite Hverdict].
  2:{ unfold evaluator, mbind, M_bind, lift_result, call, mret, M_ret.
      cbn [messages st1]. rewrite getitem_last. cbn [world]. rewrite Heval. reflexivity. }
  rewrite run_nodes_END.
  assert (Hmsgs2 : messages st2 =
            (transcript (self mc) ++ [HumanMessage message]) ++
              [AIMessage answer [];
               AIMessage ("Evaluator Feedback on this answer: " +:+ feedback verdict) []]).
  { cbn [messages st2 st1]. rewrite Hmsgs0, <- !app_assoc. reflexivity. }
  rewrite Hmsgs2, getitem_last_but_one.
  change [AIMessage answer []; AIMessage ("Evaluator Feedback on this answer: "
                                          +:+ feedback verdict) []]
    with ([AIMessage answer []] ++ [AIMessage ("Evaluator Feedback on this answer: "
                                               +:+ feedback verdict) []]).
  rewrite (app_assoc _ [AIMessage answer []]), getitem_last.
  eexists. split; [reflexivity|].
  unfold transcript at 1. cbn [self memory sidekick_id set_memory].
  fold tid. rewrite lookup_insert_eq, Hmsgs2, <- !app_assoc. reflexivity.
Qed.

(** X27. When the worker's LLM is down, [run_superstep] on an initialized
    instance raises a [RuntimeError] that carries the text of the LLM's
    error after "Failed to run superstep: ", and the thread keeps the
    user's message: the transcript has grown by that one message. *)
Theorem run_superstep_worker_down (mc : Machine) (message criteria : string)
    (history : list ChatEntry) (failure : Exception) :
  instance_state svc mc ->
  _is_initialized (self mc) = true ->
  (1 <= recursion_limit svc)%nat ->
  (forall n input, worker_llm_invoke svc n input = Raise failure) ->
  exists mc',
    run_superstep svc message criteria history mc =
      (mc', Raise (mkException RuntimeError
                     ("Failed to run superstep: " +:+ str failure)))
    /\ transcript (self mc') = transcript (self mc) ++ [HumanMessage message].
Proof.
  intros Hst Hinit Hlimit Hworker.
  destruct (instance_state_sound _ _ Hst) as (_ & Hno & Hgraph).
  unfold run_superstep, get_self, mbind, M_bind, try_except, lift_result, raise.
  rewrite Hinit, (Hgraph Hinit). cbn [negb].
  unfold ainvoke, get_self, mbind, M_bind, lift_result.
  rewrite apply_update_input, next_node_start.
  unfold put_checkpoint, set_self, modify. cbn [self world].
  destruct (recursion_limit svc) as [|fuel]; [lia|].
  set (tid := sidekick_id (self mc)).
  set (st0 := seeded _ _).
  assert (Hmsgs0 : messages st0 = transcript (self mc) ++ [HumanMessage message]).
  { unfold st0, seeded, tid. cbn [messages create_initial_state].
    by rewrite <- transcript_loaded. }
  assert (Hno0 : no_system st0).
  { unfold no_system. rewrite Hmsgs0, count_system_app, Hno. done. }
  erewrite (run_nodes_raise _ _ _ "worker" st0);
    [|reflexivity|apply workflow_node_worker
     |rewrite (worker_on_no_system st0 _ Hno0); cbv zeta; rewrite Hworker; reflexivity].
  eexists. split; [reflexivity|].
  unfold transcript at 1. cbn [self memory sidekick_id set_memory].
  fold tid. by rewrite lookup_insert_eq.
Qed.

End Supersteps.

(** *** The further properties at work on the scripted worlds *)

Lemma workflow_routing_total_witness :
  exists target,
    next_node (workflow scripted) "worker" answered = Ok target
    /\ known_target (workflow scripted) target.
Proof.
  apply (workflow_routing_total scripted "worker" answered).
  - right. by rewrite workflow_node_worker.
  - discriminate.
Defined.

Lemma no_message_IndexError_witness :
  worker_router empty_channels = Raise (mkException IndexError "list index out of range")
  /\ evaluator scripted empty_channels [] =
       ([], Raise (mkException IndexError "list index out of range")).
Proof. exact (no_message_IndexError scripted empty_channels [] eq_refl). Defined.

Lemma key_environ_loaded : Config.load decimal_7860 key_environ = Ok loaded_config.
Proof. vm_compute. reflexivity. Qed.

Lemma Config_validate_loaded_witness :
  (Config.validate loaded_config = Ok true
     <-> exists key, key_environ !! "OPENAI_API_KEY" = Some key /\ key <> "")
  /\ (Config.validate loaded_config = Ok true
      \/ Config.validate loaded_config =
           Raise (mkException ValueError "OPENAI_API_KEY is required")).
Proof.
  exact (Config_validate_loaded decimal_7860 key_environ loaded_config key_environ_loaded).
Defined.

Lemma Config_environment_modes_witness :
  Config.is_production loaded_config && Config.is_development loaded_config = false
  /\ (key_environ !! "APP_ENV" = None ->
      Config.is_development loaded_config = true
      /\ Config.is_production loaded_config = false).
Proof.
  exact (Config_environment_modes decimal_7860 key_environ loaded_config key_environ_loaded).
Defined.

Lemma push_outcome_witness :
  External.push pushover_config accepting "done" [] =
    ([mkPostRequest "https://api.pushover.net/1/messages.json"
        [("token", "token"); ("user", "user"); ("message", "done")] 10],
     Ok "Push notification sent successfully")
  /\ External.push loaded_config accepting "done" [] =
       ([], Ok "Push notifications not configured").
Proof.
  split.
  - destruct (push_outcome pushover_config accepting "done" []) as [_ H].
    destruct (H eq_refl) as (H1 & H2 & _).
    specialize (H2 eq_refl).
    destruct (External.push pushover_config accepting "done" []) as [sent r].
    cbn [fst snd] in H1, H2. by rewrite H1, H2.
  - apply (push_outcome loaded_config accepting "done" []). reflexivity.
Defined.

Lemma other_tools_degrades_witness :
  exists file_tools wiki repl,
    ["send_push_notification"; "Python_REPL"] =
      ["send_push_notification"] ++ file_tools
        ++ (if truthy_opt (Config.SERPER_API_KEY loaded_config) then ["search"] else [])
        ++ wiki ++ repl
    /\ file_tools = match file_management_tools broken_backends with
                    | Ok l => l | Raise _ => [] end
    /\ wiki = match wikipedia_tool broken_backends with Ok t => [t] | Raise _ => [] end
    /\ repl = match python_repl_tool broken_backends with Ok t => [t] | Raise _ => [] end.
Proof.
  apply (other_tools_degrades loaded_config broken_backends []). reflexivity.
Defined.

Lemma stuck_turn_raises :
  run_superstep evaluator_down "hi" "" [] stuck =
    (fst (run_superstep evaluator_down "hi" "" [] stuck),
     Raise (mkException RuntimeError "Failed to run superstep: Connection error.")).
Proof. vm_compute. reflexivity. Qed.

Lemma stuck_initialized : _is_initialized (self stuck) = true.
Proof. reflexivity. Qed.

Lemma run_superstep_raises_RuntimeError_witness :
  exc_type (mkException RuntimeError "Failed to run superstep: Connection error.")
    = RuntimeError
  /\ exists text,
       str (mkException RuntimeError "Failed to run superstep: Connection error.")
         = "Failed to run superstep: " +:+ text.
Proof.
  pose proof (run_superstep_raises_RuntimeError evaluator_down "hi" "" [] stuck _ _
                stuck_turn_raises) as [H1 H2].
  rewrite stuck_initialized in H2. split; [exact H1|exact H2].
Defined.

Lemma half_ready_raises :
  setup no_model fresh =
    (half_ready,
     Raise (mkException RuntimeError "Failed to setup Sidekick: Invalid API key.")).
Proof. vm_compute. reflexivity. Qed.

Lemma setup_raises_RuntimeError_witness :
  exc_type (mkException RuntimeError "Failed to setup Sidekick: Invalid API key.")
    = RuntimeError
  /\ (exists text,
        str (mkException RuntimeError "Failed to setup Sidekick: Invalid API key.")
          = "Failed to setup Sidekick: " +:+ text)
  /\ _is_initialized (self half_ready) = _is_initialized (self fresh)
  /\ memory (self half_ready) = memory (self fresh).
Proof. exact (setup_raises_RuntimeError no_model fresh half_ready _ half_ready_raises). Defined.



Lemma setup_without_key_witness :
  setup no_key fresh =
    (fresh, Raise (mkException RuntimeError
                     "Failed to setup Sidekick: OPENAI_API_KEY is required")).
Proof. exact (setup_without_key no_key fresh eq_refl). Defined.


Lemma process_message_without_session_witness :
  process_message scripted "hi" "" [] (mkSession [] None) =
    (mkSession
       ([] ++ [EvLoggerInfo ("Processing message: " +:+ prefix_slice 100 "hi" +:+ "...");
               EvLoggerError ("Error processing message: " +:+
                                "'NoneType' object has no attribute 'run_superstep'")])
       None,
     Ok ([] ++ [mkChatEntry "assistant"
                  ("Sorry, I encountered an error: " +:+
                     "'NoneType' object has no attribute 'run_superstep'")])).
Proof. exact (process_message_without_session scripted "hi" "" [] [] eq_refl). Defined.

Lemma opened_returns :
  SidekickUI_setup scripted numbered empty_window =
    (opened, Ok (ui_sidekick (window_self opened))).
Proof. vm_compute. reflexivity. Qed.

Lemma SidekickUI_setup_once_witness :
  ui__is_initialized (window_self opened) = true
  /\ ui_sidekick (window_self opened) = ui_sidekick (window_self opened)
  /\ SidekickUI_setup scripted numbered opened =
       (opened, Ok (ui_sidekick (window_self opened))).
Proof.
  exact (SidekickUI_setup_once scripted numbered empty_window opened _ opened_returns).
Defined.

Lemma SidekickUI_setup_first_witness :
  exists sk,
    ui_sidekick (window_self opened) = Some sk
    /\ ui_sidekick (window_self opened) = Some sk
    /\ _is_initialized sk = true
    /\ sidekick_id sk = numbered (window_uuids empty_window)
    /\ memory sk = ∅
    /\ transcript sk = [].
Proof.
  exact (SidekickUI_setup_first scripted numbered empty_window opened _ eq_refl
           opened_returns).
Defined.

Lemma unopened_raises :
  SidekickUI_setup no_key numbered empty_window =
    (unopened, Raise (mkException RuntimeError
                        "Failed to setup Sidekick: OPENAI_API_KEY is required")).
Proof. vm_compute. reflexivity. Qed.

Lemma SidekickUI_setup_raises_witness :
  ui__is_initialized (window_self unopened) = false
  /\ last (window_world unopened) =
       Some (EvLoggerError
               ("Failed to initialize Sidekick: " +:+
                  str (mkException RuntimeError
                         "Failed to setup Sidekick: OPENAI_API_KEY is required"))).
Proof.
  pose proof (SidekickUI_setup_raises no_key numbered empty_window unopened _
                unopened_raises) as (_ & _ & H1 & _ & H2).
  split; [exact H1|exact H2].
Defined.

Lemma reopened_returns :
  SidekickUI_reset scripted numbered opened =
    (fst reopened,
     Ok ("", "", [], default (Sidekick__init__ "") (ui_sidekick (window_self (fst reopened))))).
Proof. vm_compute. reflexivity. Qed.

Lemma reopened_success :
  last (window_world (fst reopened)) = Some (EvLoggerInfo "Conversation reset successfully").
Proof. vm_compute. reflexivity. Qed.

Lemma SidekickUI_reset_new_session_witness :
  let sk := default (Sidekick__init__ "") (ui_sidekick (window_self (fst reopened))) in
  window_self (fst reopened) = mkSidekickUI (Some sk) true
  /\ _is_initialized sk = true
  /\ sidekick_id sk = numbered (window_uuids opened)
  /\ memory sk = ∅
  /\ transcript sk = [].
Proof.
  exact (SidekickUI_reset_new_session scripted numbered opened (fst reopened) _ _
           reopened_returns reopened_success).
Defined.

Lemma opened_self :
  window_self opened = mkSidekickUI (Some (self ready_opened)) true.
Proof. vm_compute. reflexivity. Qed.

Lemma SidekickUI_reset_closes_old_witness :
  exists rest,
    window_world (fst (SidekickUI_reset scripted numbered opened)) =
      window_world opened ++ EvLoggerInfo "Resetting conversation..."
        :: EvBrowserClose (mkBrowser 1) :: rest.
Proof.
  exact (SidekickUI_reset_closes_old scripted numbered opened (self ready_opened)
           (mkBrowser 1) (mkPlaywright 1) opened_self eq_refl eq_refl).
Defined.

Lemma not_reopened_returns :
  SidekickUI_reset no_model numbered opened =
    (fst not_reopened,
     Ok ("", "", [], default (Sidekick__init__ "")
                       (ui_sidekick (window_self (fst not_reopened))))).
Proof. vm_compute. reflexivity. Qed.

Lemma not_reopened_failure :
  last (window_world (fst not_reopened)) <>
    Some (EvLoggerInfo "Conversation reset successfully").
Proof. vm_compute. discriminate. Qed.

Lemma ready_opened_paired : handles_paired (self ready_opened).
Proof. vm_compute. reflexivity. Qed.

Lemma SidekickUI_reset_failed_witness :
  let sk := default (Sidekick__init__ "") (ui_sidekick (window_self (fst not_reopened))) in
  window_self (fst not_reopened) = mkSidekickUI (Some sk) true
  /\ _is_initialized sk = false
  /\ browser sk = None
  /\ playwright sk = None
  /\ sidekick_id sk = sidekick_id (self ready_opened)
  /\ memory sk = memory (self ready_opened).
Proof.
  exact (SidekickUI_reset_failed no_model numbered opened (fst not_reopened)
           (self ready_opened) _ _ opened_self ready_opened_paired not_reopened_returns
           not_reopened_failure).
Defined.

Lemma ready_direct_instance_state : instance_state direct ready_direct.
Proof. apply after_setup, created. Qed.

Lemma run_superstep_one_cycle_witness :
  exists mc',
    run_superstep direct "Summarize it" "" [] ready_direct =
      (mc', Ok ([] ++ [mkChatEntry "user" "Summarize it";
                       mkChatEntry "assistant" "Which page?";
                       mkChatEntry "assistant"
                         ("Evaluator Feedback on this answer: " +:+
                            feedback (mkEvaluatorOutput "A fair question." false true))]))
    /\ transcript (self mc') =
         transcript (self ready_direct) ++
           [HumanMessage "Summarize it"; AIMessage "Which page?" [];
            AIMessage ("Evaluator Feedback on this answer: " +:+
                         feedback (mkEvaluatorOutput "A fair question." false true)) []].
Proof.
  apply (run_superstep_one_cycle direct ready_direct "Summarize it" "" [] "Which page?"
           (mkEvaluatorOutput "A fair question." false true)
           ready_direct_instance_state eq_refl).
  - vm_compute. lia.
  - reflexivity.
  - reflexivity.
  - reflexivity.
Defined.

Lemma ready_worker_down_instance_state : instance_state worker_down ready_worker_down.
Proof. apply after_setup, created. Qed.

Lemma run_superstep_worker_down_witness :
  exists mc',
    run_superstep worker_down "hi" "" [] ready_worker_down =
      (mc', Raise (mkException RuntimeError
                     ("Failed to run superstep: " +:+
                        str (mkException ServiceError "Rate limit."))))
    /\ transcript (self mc') = transcript (self ready_worker_down) ++ [HumanMessage "hi"].
Proof.
  apply (run_superstep_worker_down worker_down ready_worker_down "hi" "" []
           (mkException ServiceError "Rate limit.")
           ready_worker_down_instance_state eq_refl).
  - vm_compute. lia.
  - reflexivity.
Defined.
